(** * Paymodel Python SDK: a shallow embedding of [sdk/python/paymodel.py]

    The development follows the source file top to bottom:

    - Python [str] primitives used by the SDK ([strip], [startswith],
      [lower], [split], slicing);
    - the dynamically typed values produced by [json.loads];
    - response shaping ([ChatCompletion], [ChatCompletionChunk]);
    - the server-sent-event decoder ([ChatCompletions._stream]);
    - the client, its constructor and the transport ([_get], [_post]).

    Conventions.  A Python [str] is a [string] whose characters are the code
    points below 256; the text handed to the stream decoder is the text
    obtained after [raw_line.decode("utf-8")].  A raised exception is the
    left injection of [result].  The functions of the client take
    [json.loads] as an argument that returns a value or raises any
    exception; [Json.loads] is the decoder used on concrete texts. *)

From Stdlib Require Import ZArith List String Ascii Bool Lia DecimalString.
Import ListNotations.

Local Open Scope string_scope.
Local Open Scope Z_scope.

(* ================================================================= *)
(** ** Python [str] primitives *)

Module Str.

Definition newline : ascii := ascii_of_nat 10.
Definition nl : string := String newline EmptyString.

(** [c.isspace()] on the code points below 256: TAB..CR, FS..US, SPACE,
    NEL and NBSP. *)
Definition isspace (c : ascii) : bool :=
  let n := nat_of_ascii c in
  ((9 <=? n) && (n <=? 13) || (28 <=? n) && (n <=? 32)
   || (n =? 133) || (n =? 160))%nat.

Fixpoint lstrip (s : string) : string :=
  match s with
  | EmptyString => EmptyString
  | String c r => if isspace c then lstrip r else s
  end.

Fixpoint rstrip (s : string) : string :=
  match s with
  | EmptyString => EmptyString
  | String c r =>
      match rstrip r with
      | EmptyString => if isspace c then EmptyString else String c EmptyString
      | r' => String c r'
      end
  end.

(** [s.strip()] *)
Definition strip (s : string) : string := lstrip (rstrip s).

(** [s.rstrip(ch)] for a one-character argument *)
Fixpoint rstrip_char (ch : ascii) (s : string) : string :=
  match s with
  | EmptyString => EmptyString
  | String c r =>
      match rstrip_char ch r with
      | EmptyString => if Ascii.eqb c ch then EmptyString else String c EmptyString
      | r' => String c r'
      end
  end.

(** [s.startswith(p)] *)
Fixpoint startswith (p s : string) : bool :=
  match p, s with
  | EmptyString, _ => true
  | String a p', String b s' => Ascii.eqb a b && startswith p' s'
  | String _ _, EmptyString => false
  end.

(** [s[n:]] *)
Fixpoint drop (n : nat) (s : string) : string :=
  match n, s with
  | O, _ => s
  | S n', String _ r => drop n' r
  | S _, EmptyString => EmptyString
  end.

(** ["\n" in s] together with [s.split("\n", 1)]: [None] when [s] holds no
    newline, otherwise the text before the first newline and the text
    after it. *)
Fixpoint split_nl (s : string) : option (string * string) :=
  match s with
  | EmptyString => None
  | String c r =>
      if Ascii.eqb c newline then Some (EmptyString, r)
      else match split_nl r with
           | Some (a, b) => Some (String c a, b)
           | None => None
           end
  end.

(** [c.lower()] on the code points below 256: A..Z and the Latin-1
    capitals (all of À..Þ but the multiplication sign). *)
Definition lower_char (c : ascii) : ascii :=
  let n := nat_of_ascii c in
  if ((65 <=? n) && (n <=? 90)
      || (192 <=? n) && (n <=? 222) && negb (n =? 215))%nat
  then ascii_of_nat (n + 32) else c.

Fixpoint lower (s : string) : string :=
  match s with
  | EmptyString => EmptyString
  | String c r => String (lower_char c) (lower r)
  end.

(** [len(s)] *)
Definition len (s : string) : Z := Z.of_nat (String.length s).

(** the one-character strings a [for] loop over a [str] goes through *)
Fixpoint chars (s : string) : list string :=
  match s with
  | EmptyString => []
  | String c r => String c EmptyString :: chars r
  end.

(** [str(n)] for an [int] *)
Definition of_Z (n : Z) : string := NilZero.string_of_int (Z.to_int n).

End Str.

(* ================================================================= *)
(** ** Values and exceptions *)

(** What [json.loads] returns: [None], [bool], [int], [float] (kept as the
    literal that denotes it), [str], [list] and [dict] with [str] keys, in
    insertion order. *)
Unset Elimination Schemes.
Inductive value : Type :=
| VNone
| VBool (b : bool)
| VInt (n : Z)
| VFloat (literal : string)
| VStr (s : string)
| VList (items : list value)
| VDict (items : list (string * value)).
Set Elimination Schemes.

Definition dict := list (string * value).

Inductive exn : Type :=
| ValueError (msg : string)
| AttributeError
| TypeError
| JSONDecodeError
| HTTPError (code : Z) (msg : string)
| URLError
| UnicodeDecodeError
| RecursionError
| PaymodelError (code message data : value).

Definition result (A : Type) : Type := (exn + A)%type.

Definition ret {A} (a : A) : result A := inr a.
Definition raise {A} (e : exn) : result A := inl e.
Definition bind {A B} (m : result A) (k : A -> result B) : result B :=
  match m with
  | inl e => inl e
  | inr a => k a
  end.

Notation "x <- m ;; k" := (bind m (fun x => k))
  (at level 61, m at next level, right associativity).

(** [d[k]] lookup on the items of a dict *)
Fixpoint dict_get (k : string) (d : dict) : option value :=
  match d with
  | [] => None
  | (k', v) :: d' => if String.eqb k k' then Some v else dict_get k d'
  end.

(** [d[k] = v]: an existing key keeps its place *)
Fixpoint dict_set (k : string) (v : value) (d : dict) : dict :=
  match d with
  | [] => [(k, v)]
  | (k', v') :: d' =>
      if String.eqb k k' then (k', v) :: d' else (k', v') :: dict_set k v d'
  end.

(** [x.get(k, default)]: only a dict has the attribute [get]. *)
Definition get (x : value) (k : string) (default : value) : result value :=
  match x with
  | VDict d =>
      ret (match dict_get k d with Some v => v | None => default end)
  | _ => raise AttributeError
  end.

(** the items [enumerate(x)] goes through: the elements of a list, the
    characters of a str, the keys of a dict; anything else is not
    iterable. *)
Definition iterate (x : value) : result (list value) :=
  match x with
  | VList l => ret l
  | VStr s => ret (map VStr (Str.chars s))
  | VDict d => ret (map (fun kv => VStr (fst kv)) d)
  | _ => raise TypeError
  end.

(** a list comprehension [[f(i, c) for i, c in enumerate(l)]], counting
    from [i] *)
Fixpoint comprehension {A} (f : Z -> value -> result A) (i : Z)
    (l : list value) : result (list A) :=
  match l with
  | [] => ret []
  | c :: l' =>
      a <- f i c ;;
      rest <- comprehension f (i + 1) l' ;;
      ret (a :: rest)
  end.

(* ================================================================= *)
(** ** Response shaping *)

Module Message.
Record t := Make { role : value; content : value }.
End Message.

Module Choice.
Record t := Make
  { index : value; message : Message.t; finish_reason : value }.
End Choice.

Module Usage.
Record t := Make
  { prompt_tokens : value; completion_tokens : value; total_tokens : value }.
End Usage.

Module ChatCompletion.

Record t := Make
  { _data : value;
    id : value;
    object : value;
    model : value;
    choices : list Choice.t;
    usage : Usage.t;
    cost : option string;
    balance : option string }.

(** the body of the comprehension over [enumerate(data.get("choices", []))] *)
Definition choice (i : Z) (c : value) : result Choice.t :=
  index <- get c "index" (VInt i) ;;
  m <- get c "message" (VDict []) ;;
  role <- get m "role" (VStr "assistant") ;;
  m' <- get c "message" (VDict []) ;;
  content <- get m' "content" (VStr "") ;;
  finish_reason <- get c "finish_reason" VNone ;;
  ret (Choice.Make index (Message.Make role content) finish_reason).

(** the comprehension that builds [self.choices] *)
Definition choices_of (data : value) : result (list Choice.t) :=
  cs <- get data "choices" (VList []) ;;
  items <- iterate cs ;;
  comprehension choice 0 items.

Definition init (data : value) : result t :=
  id <- get data "id" (VStr "") ;;
  object <- get data "object" (VStr "chat.completion") ;;
  model <- get data "model" (VStr "") ;;
  choices <- choices_of data ;;
  usage <- get data "usage" (VDict []) ;;
  prompt_tokens <- get usage "prompt_tokens" (VInt 0) ;;
  completion_tokens <- get usage "completion_tokens" (VInt 0) ;;
  total_tokens <- get usage "total_tokens" (VInt 0) ;;
  ret (Make data id object model choices
         (Usage.Make prompt_tokens completion_tokens total_tokens)
         None None).

End ChatCompletion.

Module DeltaMessage.
Record t := Make { role : value; content : value }.
End DeltaMessage.

Module StreamChoice.
Record t := Make
  { index : value; delta : DeltaMessage.t; finish_reason : value }.
End StreamChoice.

Module ChatCompletionChunk.

Record t := Make
  { id : value;
    object : value;
    model : value;
    choices : list StreamChoice.t }.

Definition choice (i : Z) (c : value) : result StreamChoice.t :=
  index <- get c "index" (VInt i) ;;
  d <- get c "delta" (VDict []) ;;
  role <- get d "role" VNone ;;
  d' <- get c "delta" (VDict []) ;;
  content <- get d' "content" VNone ;;
  finish_reason <- get c "finish_reason" VNone ;;
  ret (StreamChoice.Make index (DeltaMessage.Make role content) finish_reason).

(** the comprehension that builds [self.choices] *)
Definition choices_of (data : value) : result (list StreamChoice.t) :=
  cs <- get data "choices" (VList []) ;;
  items <- iterate cs ;;
  comprehension choice 0 items.

Definition init (data : value) : result t :=
  id <- get data "id" (VStr "") ;;
  model <- get data "model" (VStr "") ;;
  choices <- choices_of data ;;
  ret (Make id (VStr "chat.completion.chunk") model choices).

End ChatCompletionChunk.

(* ================================================================= *)
(** ** [json.loads]

    The decoder of the Python standard library, written after its scanner
    ([json.scanner], [json.decoder]): strict strings, numbers made of an
    optional minus sign, an integer part without leading zero, an optional
    fraction and an optional exponent, the constants [NaN], [Infinity] and
    [-Infinity], white space made of space, tab, line feed and carriage
    return.  It raises [JSONDecodeError] on a text that is not JSON,
    [RecursionError] when arrays and objects are nested deeper than the
    interpreter allows, and [ValueError] on an integer of more than 4300
    digits.  A [\uXXXX] escape is decoded when it denotes a code point below
    256, the range of the character model; above it the decoder of this
    file raises [JSONDecodeError].  A float is kept as the literal that
    denotes it.  The text is a [str], or bytes that are ASCII. *)

Module Json.

Definition code_is (c : ascii) (n : nat) : bool := Nat.eqb (nat_of_ascii c) n.

Definition is_ws (c : ascii) : bool :=
  code_is c 32 || code_is c 9 || code_is c 10 || code_is c 13.

Fixpoint skip_ws (s : string) : string :=
  match s with
  | EmptyString => EmptyString
  | String c r => if is_ws c then skip_ws r else s
  end.

Definition is_digit (c : ascii) : bool :=
  let n := nat_of_ascii c in ((48 <=? n) && (n <=? 57))%nat.

(** the longest run of decimal digits at the head, and what follows *)
Fixpoint span_digits (s : string) : string * string :=
  match s with
  | EmptyString => (EmptyString, EmptyString)
  | String c r =>
      if is_digit c
      then let '(d, rest) := span_digits r in (String c d, rest)
      else (EmptyString, s)
  end.

Fixpoint Z_of_digits (acc : Z) (s : string) : Z :=
  match s with
  | EmptyString => acc
  | String c r => Z_of_digits (10 * acc + Z.of_nat (nat_of_ascii c - 48)) r
  end.

Definition hex_digit (c : ascii) : option nat :=
  let n := nat_of_ascii c in
  if ((48 <=? n) && (n <=? 57))%nat then Some (n - 48)%nat
  else if ((97 <=? n) && (n <=? 102))%nat then Some (n - 87)%nat
  else if ((65 <=? n) && (n <=? 70))%nat then Some (n - 55)%nat
  else None.

Definition hex4 (a b c d : ascii) : option nat :=
  match hex_digit a, hex_digit b, hex_digit c, hex_digit d with
  | Some x, Some y, Some z, Some w =>
      Some (((x * 16 + y) * 16 + z) * 16 + w)%nat
  | _, _, _, _ => None
  end.

(** one-character escapes after a backslash *)
Definition escape (c : ascii) : option ascii :=
  if code_is c 34 then Some c
  else if code_is c 92 then Some c
  else if code_is c 47 then Some c
  else if code_is c 98 then Some (ascii_of_nat 8)
  else if code_is c 102 then Some (ascii_of_nat 12)
  else if code_is c 110 then Some (ascii_of_nat 10)
  else if code_is c 114 then Some (ascii_of_nat 13)
  else if code_is c 116 then Some (ascii_of_nat 9)
  else None.

(** [scanstring], from the character after the opening quote: the decoded
    string and the text after the closing quote. *)
Fixpoint scanstring (s : string) : option (string * string) :=
  match s with
  | EmptyString => None
  | String c r =>
      if code_is c 34 then Some (EmptyString, r)
      else if code_is c 92 then
        match r with
        | EmptyString => None
        | String e r1 =>
            if code_is e 117 then
              match r1 with
              | String h1 (String h2 (String h3 (String h4 r2))) =>
                  match hex4 h1 h2 h3 h4 with
                  | Some n =>
                      if (n <? 256)%nat then
                        match scanstring r2 with
                        | Some (t, rest) => Some (String (ascii_of_nat n) t, rest)
                        | None => None
                        end
                      else None
                  | None => None
                  end
              | _ => None
              end
            else
              match escape e with
              | Some x =>
                  match scanstring r1 with
                  | Some (t, rest) => Some (String x t, rest)
                  | None => None
                  end
              | None => None
              end
        end
      else if (nat_of_ascii c <? 32)%nat then None
      else
        match scanstring r with
        | Some (t, rest) => Some (String c t, rest)
        | None => None
        end
  end.

(** the fraction [\.[0-9]+], when there is one *)
Definition fraction (s : string) : string * string :=
  match s with
  | String c r =>
      if code_is c 46 then
        match span_digits r with
        | (EmptyString, _) => (EmptyString, s)
        | (d, rest) => (String c d, rest)
        end
      else (EmptyString, s)
  | EmptyString => (EmptyString, s)
  end.

(** the exponent [[eE][-+]?[0-9]+], when there is one *)
Definition exponent (s : string) : string * string :=
  match s with
  | String c r =>
      if code_is c 101 || code_is c 69 then
        let '(sign, r1) :=
          match r with
          | String g r' =>
              if code_is g 43 || code_is g 45 then (String g EmptyString, r')
              else (EmptyString, r)
          | EmptyString => (EmptyString, r)
          end in
        match span_digits r1 with
        | (EmptyString, _) => (EmptyString, s)
        | (d, rest) => (String c (sign ++ d), rest)
        end
      else (EmptyString, s)
  | EmptyString => (EmptyString, s)
  end.

(** the digits an integer literal may have
    ([sys.get_int_max_str_digits()]) *)
Definition int_max_str_digits : nat := 4300.

Definition number (s : string) : result (value * string) :=
  let '(neg, s1) :=
    match s with
    | String c r => if code_is c 45 then (true, r) else (false, s)
    | EmptyString => (false, s)
    end in
  let int_part :=
    match s1 with
    | String c r =>
        if code_is c 48 then Some (String c EmptyString, r)
        else if is_digit c then Some (span_digits s1)
        else None
    | EmptyString => None
    end in
  match int_part with
  | None => raise JSONDecodeError
  | Some (digits, r1) =>
      let '(frac, r2) := fraction r1 in
      let '(exp, r3) := exponent r2 in
      match frac, exp with
      | EmptyString, EmptyString =>
          if (int_max_str_digits <? String.length digits)%nat then
            raise (ValueError
                     ("Exceeds the limit (4300 digits) for integer string conversion: value has "
                      ++ Str.of_Z (Z.of_nat (String.length digits))
                      ++ " digits; use sys.set_int_max_str_digits() to increase the limit"))
          else
            let n := Z_of_digits 0 digits in
            ret (VInt (if neg then - n else n), r3)
      | _, _ =>
          ret (VFloat ((if neg then "-" else "") ++ digits ++ frac ++ exp), r3)
      end
  end.

Definition keyword (s : string) : option (value * string) :=
  if Str.startswith "null" s then Some (VNone, Str.drop 4 s)
  else if Str.startswith "true" s then Some (VBool true, Str.drop 4 s)
  else if Str.startswith "false" s then Some (VBool false, Str.drop 5 s)
  else None.

Definition constant (s : string) : result (value * string) :=
  if Str.startswith "NaN" s then ret (VFloat "NaN", Str.drop 3 s)
  else if Str.startswith "Infinity" s then ret (VFloat "Infinity", Str.drop 8 s)
  else if Str.startswith "-Infinity" s then ret (VFloat "-Infinity", Str.drop 9 s)
  else raise JSONDecodeError.

(** [scan_once]; [elements] is the loop of [JSONArray] and [members] the
    loop of [JSONObject], entered after the opening quote of a key.
    [depth] is the number of arrays and objects that may still be entered,
    one inside the other, before the interpreter raises [RecursionError].
    The fuel bounds the number of nested calls of this definition and is
    never used up on a text of half its size. *)
Fixpoint scan_once (fuel depth : nat) (s : string) {struct fuel}
    : result (value * string) :=
  match fuel with
  | O => raise JSONDecodeError
  | S f =>
      match s with
      | EmptyString => raise JSONDecodeError
      | String c r =>
          if code_is c 34 then
            match scanstring r with
            | Some (t, rest) => ret (VStr t, rest)
            | None => raise JSONDecodeError
            end
          else if code_is c 123 then
            match depth with
            | O => raise RecursionError
            | S depth' =>
                match skip_ws r with
                | String c1 r1 =>
                    if code_is c1 125 then ret (VDict [], r1)
                    else if code_is c1 34 then members f depth' [] r1
                    else raise JSONDecodeError
                | EmptyString => raise JSONDecodeError
                end
            end
          else if code_is c 91 then
            match depth with
            | O => raise RecursionError
            | S depth' =>
                match skip_ws r with
                | String c1 r1 =>
                    if code_is c1 93 then ret (VList [], r1)
                    else elements f depth' [] (String c1 r1)
                | EmptyString => raise JSONDecodeError
                end
            end
          else
            match keyword s with
            | Some x => ret x
            | None =>
                match number s with
                | inl JSONDecodeError => constant s
                | other => other
                end
            end
      end
  end
with elements (fuel depth : nat) (acc : list value) (s : string) {struct fuel}
    : result (value * string) :=
  match fuel with
  | O => raise JSONDecodeError
  | S f =>
      match scan_once f depth s with
      | inl e => raise e
      | inr (v, r) =>
          match skip_ws r with
          | String c r1 =>
              if code_is c 93 then ret (VList (rev (v :: acc)), r1)
              else if code_is c 44 then elements f depth (v :: acc) (skip_ws r1)
              else raise JSONDecodeError
          | EmptyString => raise JSONDecodeError
          end
      end
  end
with members (fuel depth : nat) (acc : dict) (s : string) {struct fuel}
    : result (value * string) :=
  match fuel with
  | O => raise JSONDecodeError
  | S f =>
      match scanstring s with
      | None => raise JSONDecodeError
      | Some (k, r) =>
          match skip_ws r with
          | String c r1 =>
              if code_is c 58 then
                match scan_once f depth (skip_ws r1) with
                | inl e => raise e
                | inr (v, r2) =>
                    match skip_ws r2 with
                    | String c2 r3 =>
                        if code_is c2 125 then ret (VDict (dict_set k v acc), r3)
                        else if code_is c2 44 then
                          match skip_ws r3 with
                          | String c3 r4 =>
                              if code_is c3 34
                              then members f depth (dict_set k v acc) r4
                              else raise JSONDecodeError
                          | EmptyString => raise JSONDecodeError
                          end
                        else raise JSONDecodeError
                    | EmptyString => raise JSONDecodeError
                    end
                end
              else raise JSONDecodeError
          | EmptyString => raise JSONDecodeError
          end
      end
  end.

(** [json.loads(s)] with [depth] levels of nesting available: one value,
    white space around it, nothing else. *)
Definition loads_within (depth : nat) (s : string) : result value :=
  match scan_once (S (S (2 * String.length s))) depth (skip_ws s) with
  | inr (v, r) =>
      match skip_ws r with
      | EmptyString => ret v
      | String _ _ => raise JSONDecodeError
      end
  | inl e => raise e
  end.

(** The levels available are what is left of the recursion limit of the
    interpreter ([sys.getrecursionlimit()], 1000 unless changed) when the
    scanner runs: the frames of the caller, of [json.loads] and of the
    decoder are counted against the same limit, some ten of them. *)
Definition recursion_limit : nat := 1000.
Definition frames_in_use : nat := 10.

Definition loads (s : string) : result value :=
  loads_within (recursion_limit - frames_in_use) s.

End Json.

(** Rocq string literals below write the JSON double quote as an apostrophe;
    [dq] puts the double quotes back. *)
Fixpoint dq (s : string) : string :=
  match s with
  | EmptyString => EmptyString
  | String c r =>
      String (if Nat.eqb (nat_of_ascii c) 39 then ascii_of_nat 34 else c) (dq r)
  end.

(* ================================================================= *)
(** ** The network

    [urllib.request.urlopen] answers a request with a response (headers and
    body), raises [urllib.error.HTTPError] on a status outside 2xx (the
    error carries the status, its reason and the body), or raises
    [urllib.error.URLError] when no HTTP response exists. *)

Record Request := mkRequest
  { req_url : string;
    req_data : option string;
    req_headers : list (string * string);
    req_method : string }.

Inductive reply : Type :=
| Response (headers : list (string * string)) (body : string)
| ErrorResponse (code : Z) (msg : string) (body : string)
| NoResponse.

(** [resp.headers[name]]: the value of the first header whose name is
    [name], letter case apart *)
Fixpoint header_first (name : string) (headers : list (string * string))
    : option string :=
  match headers with
  | [] => None
  | (k, v) :: h =>
      if String.eqb (Str.lower k) (Str.lower name) then Some v
      else header_first name h
  end.

(** [d[k] = v] on a dict of strings: an existing key keeps its place *)
Fixpoint header_set (k v : string) (d : list (string * string))
    : list (string * string) :=
  match d with
  | [] => [(k, v)]
  | (k', v') :: d' =>
      if String.eqb k k' then (k', v) :: d' else (k', v') :: header_set k v d'
  end.

(** [dict(resp.headers)]: for each name in [resp.headers.keys()], in order,
    [d[name] = resp.headers[name]] *)
Definition dict_of_headers (headers : list (string * string))
    : list (string * string) :=
  fold_left
    (fun d kv =>
       match header_first (fst kv) headers with
       | Some v => header_set (fst kv) v d
       | None => d
       end)
    headers [].

(** [headers.get(name)] on that dict *)
Fixpoint header_get (name : string) (headers : list (string * string))
    : option string :=
  match headers with
  | [] => None
  | (k, v) :: h => if String.eqb name k then Some v else header_get name h
  end.

(** [str(e)] for an [HTTPError] *)
Definition str_HTTPError (code : Z) (msg : string) : string :=
  "HTTP Error " ++ Str.of_Z code ++ ": " ++ msg.

(** the lines the iteration over a response goes through, each with its
    newline; the last one may have none *)
Fixpoint readlines (s : string) : list string :=
  match s with
  | EmptyString => []
  | String c r =>
      if Ascii.eqb c Str.newline then String c EmptyString :: readlines r
      else match readlines r with
           | [] => [String c EmptyString]
           | l :: ls => String c l :: ls
           end
  end.

(* ================================================================= *)
(** ** The stream decoder (the loop of [ChatCompletions._stream])

    A run of the generator, consumed to its end, is the list of what it did
    (each call of [json.loads], each chunk yielded) and the way it ended. *)

Inductive action : Type :=
| Parse (payload : string)
| Yield (chunk : ChatCompletionChunk.t).

Inductive finish : Type :=
| Returned            (* [return] at the sentinel *)
| Exhausted           (* the response has no more lines *)
| Raised (e : exn).

Definition run : Type := (list action * finish)%type.

(** the chunks a consumer receives *)
Fixpoint yields (t : list action) : list ChatCompletionChunk.t :=
  match t with
  | [] => []
  | Yield c :: t' => c :: yields t'
  | Parse _ :: t' => yields t'
  end.

(** the payloads handed to [json.loads] *)
Fixpoint parsed (t : list action) : list string :=
  match t with
  | [] => []
  | Parse p :: t' => p :: parsed t'
  | Yield _ :: t' => parsed t'
  end.

Definition DEFAULT_BASE_URL : string := "https://paymodel.bflynn4141.workers.dev".

Section Client.

(** [json.loads], [json.dumps] and [urllib.request.urlopen] *)
Variable loads : string -> result value.
Variable dumps : value -> string.
Variable urlopen : Request -> reply.

(** the body of the [while] loop for one extracted line: what it does, and
    whether the generator goes on ([None]) or ends.  The [try] block parses
    the payload and builds the chunk; [except json.JSONDecodeError] goes on
    to the next line, and any other exception leaves the generator. *)
Definition on_line (event_line : string) : list action * option finish :=
  let event_line := Str.strip event_line in
  if negb (Str.startswith "data: " event_line) then ([], None)
  else
    let payload := Str.drop 6 event_line in
    if String.eqb payload "[DONE]" then ([], Some Returned)
    else
      match (chunk_data <- loads payload ;;
             ChatCompletionChunk.init chunk_data) with
      | inr chunk => ([Parse payload; Yield chunk], None)
      | inl JSONDecodeError => ([Parse payload], None)
      | inl e => ([Parse payload], Some (Raised e))
      end.

(** [while "\n" in buffer: ...]: the actions, the ending if the generator
    ended inside the loop, and the buffer left.  Each turn removes a
    newline from the buffer, so [fuel] above the length of the buffer is
    never used up ([drain_fuel]). *)
Fixpoint drain (fuel : nat) (buffer : string)
    : list action * option finish * string :=
  match fuel with
  | O => ([], None, buffer)
  | S fuel' =>
      match Str.split_nl buffer with
      | None => ([], None, buffer)
      | Some (event_line, buffer') =>
          match on_line event_line with
          | (out, Some fin) => (out, Some fin, buffer')
          | (out, None) =>
              let '(out', fin, b) := drain fuel' buffer' in
              ((out ++ out')%list, fin, b)
          end
      end
  end.

(** [for raw_line in resp: ...], from a given buffer; [resp] holds the
    decoded text of each raw line *)
Fixpoint for_raw_lines (buffer : string) (resp : list string) : run :=
  match resp with
  | [] => ([], Exhausted)
  | line :: resp' =>
      let buffer := buffer ++ line in
      match drain (S (String.length buffer)) buffer with
      | (out, Some fin, _) => (out, fin)
      | (out, None, buffer') =>
          let '(out', fin) := for_raw_lines buffer' resp' in
          ((out ++ out')%list, fin)
      end
  end.

(** the decoder on the lines of a response, from the empty buffer *)
Definition decode (resp : list string) : run := for_raw_lines "" resp.

(* --------------------------------------------------------------- *)
(** *** [Paymodel] *)

Record Paymodel := mkPaymodel
  { _payer : string;
    _base_url : string }.

(** [Paymodel.__init__(payer, base_url=None)] *)
Definition Paymodel_init (payer : string) (base_url : option string)
    : result Paymodel :=
  if String.eqb payer ""
     || negb (Str.startswith "0x" payer)
     || negb (Str.len payer =? 42)
  then raise (ValueError
                "payer must be a valid Ethereum address (0x + 40 hex chars)")
  else
    let url := match base_url with
               | None => DEFAULT_BASE_URL
               | Some u => if String.eqb u "" then DEFAULT_BASE_URL else u
               end in
    ret (mkPaymodel (Str.lower payer) (Str.rstrip_char "/" url)).

Definition get_request (self : Paymodel) (path : string) : Request :=
  mkRequest (_base_url self ++ path) None
    [("X-Payer", _payer self)] "GET".

Definition post_request (self : Paymodel) (path : string) (body : value)
    : Request :=
  mkRequest (_base_url self ++ path) (Some (dumps body))
    [("Content-Type", "application/json"); ("X-Payer", _payer self)] "POST".

(** what [_get] and [_post] do with the answer of [urlopen] *)
Definition receive (r : reply) : result (value * list (string * string)) :=
  match r with
  | Response headers text =>
      data <- loads text ;;
      ret (data, dict_of_headers headers)
  | ErrorResponse code msg text =>
      body <- loads text ;;
      c <- get body "code" (VStr "UNKNOWN") ;;
      m <- get body "error" (VStr (str_HTTPError code msg)) ;;
      raise (PaymodelError c m body)
  | NoResponse => raise URLError
  end.

Definition _get (self : Paymodel) (path : string)
    : result (value * list (string * string)) :=
  receive (urlopen (get_request self path)).

Definition _post (self : Paymodel) (path : string) (body : value)
    : result (value * list (string * string)) :=
  receive (urlopen (post_request self path body)).

Definition balance (self : Paymodel) : result value :=
  r <- _get self "/v1/balance" ;; ret (fst r).

Definition deposit (self : Paymodel) (tx_hash : value) : result value :=
  r <- _post self "/v1/deposit" (VDict [("txHash", tx_hash)]) ;; ret (fst r).

Definition models (self : Paymodel) : result value :=
  r <- _get self "/v1/models" ;; ret (fst r).

Definition usage (self : Paymodel) : result value :=
  r <- _get self "/v1/usage" ;; ret (fst r).

(* --------------------------------------------------------------- *)
(** *** [ChatCompletions] *)

Definition _request (client : Paymodel) (body : value)
    : result ChatCompletion.t :=
  r <- _post client "/v1/chat/completions" body ;;
  let '(data, headers) := r in
  res <- ChatCompletion.init data ;;
  ret (ChatCompletion.Make
         (ChatCompletion._data res) (ChatCompletion.id res)
         (ChatCompletion.object res) (ChatCompletion.model res)
         (ChatCompletion.choices res) (ChatCompletion.usage res)
         (header_get "X-Cost" headers) (header_get "X-Balance" headers)).

Definition _stream (client : Paymodel) (body : value) : run :=
  match urlopen (post_request client "/v1/chat/completions" body) with
  | Response _ text => decode (readlines text)
  | ErrorResponse code msg _ => ([], Raised (HTTPError code msg))
  | NoResponse => ([], Raised URLError)
  end.

Inductive created : Type :=
| Completion (r : result ChatCompletion.t)
| Stream (g : run).

(** [create(model, messages, stream=False, **kwargs)] *)
Definition create (client : Paymodel) (model messages : value)
    (stream : bool) (kwargs : dict) : created :=
  let body :=
    VDict (fold_left (fun d kv => dict_set (fst kv) (snd kv) d) kwargs
             [("model", model); ("messages", messages);
              ("stream", VBool stream)]) in
  if stream then Stream (_stream client body)
  else Completion (_request client body).

End Client.

(* ================================================================= *)
(** ** Notions of the specification *)

(** Specification, section 3: a hexadecimal character, in either case. *)
Definition is_hex (c : ascii) : bool :=
  let n := nat_of_ascii c in
  ((48 <=? n) && (n <=? 57) || (97 <=? n) && (n <=? 102)
   || (65 <=? n) && (n <=? 70))%nat.

(** Specification, sections 3 and 4.1: [0x] followed by exactly 40
    hexadecimal characters. *)
Definition is_identity (s : string) : bool :=
  match s with
  | String a (String b r) =>
      Json.code_is a 48 && Json.code_is b 120
      && Nat.eqb (String.length r) 40 && forallb is_hex (list_ascii_of_string r)
  | _ => false
  end.



(** [d.get(k, default)] as a total function on the items of a dict *)
Definition get_default (k : string) (d : dict) (default : value) : value :=
  match dict_get k d with
  | Some v => v
  | None => default
  end.

(** *** The stream as a text

    Specification, section 4.2: the decoder works on the lines of the text
    received, however the text is cut into raw reads. *)

(** the text a list of reads adds up to *)
Fixpoint text_of (resp : list string) : string :=
  match resp with
  | [] => EmptyString
  | line :: resp' => line ++ text_of resp'
  end.

(** the complete lines of a text, each without its newline, and the text
    after the last newline *)
Fixpoint lines_of (s : string) : list string * string :=
  match s with
  | EmptyString => ([], EmptyString)
  | String c r =>
      let '(ls, rest) := lines_of r in
      if Ascii.eqb c Str.newline then (EmptyString :: ls, rest)
      else match ls with
           | [] => ([], String c rest)
           | l :: ls' => (String c l :: ls', rest)
           end
  end.

(** the loop body line after line, up to the first line that ends the
    generator *)
Fixpoint on_lines (loads : string -> result value) (ls : list string)
    : list action * option finish :=
  match ls with
  | [] => ([], None)
  | l :: ls' =>
      match on_line loads l with
      | (out, Some fin) => (out, Some fin)
      | (out, None) =>
          let '(out', fin) := on_lines loads ls' in ((out ++ out')%list, fin)
      end
  end.

Definition ending (o : option finish) : finish :=
  match o with
  | Some fin => fin
  | None => Exhausted
  end.

(** the run of the decoder on a text, read line by line *)
Definition text_run (loads : string -> result value) (text : string) : run :=
  let '(out, o) := on_lines loads (fst (lines_of text)) in (out, ending o).

(** a text that stops at a line boundary: empty, or ended by a newline *)
Definition at_line_start (pre : string) : Prop := snd (lines_of pre) = EmptyString.

(** a text without newline *)
Definition one_line (l : string) : Prop := Str.split_nl l = None.

(** a well-formed [data: ] line: its trimmed form is [data: ] and a
    payload, other than the sentinel, that [json.loads] parses to a value
    from which the chunk [c] is built *)
Definition data_line (loads : string -> result value) (l : string)
    (c : ChatCompletionChunk.t) : Prop :=
  exists payload v,
    Str.strip l = "data: " ++ payload
    /\ payload <> "[DONE]"
    /\ loads payload = ret v
    /\ ChatCompletionChunk.init v = ret c.

(** *** Further vocabulary *)

(** the last character of a string *)
Fixpoint last_char (s : string) : option ascii :=
  match s with
  | EmptyString => None
  | String c EmptyString => Some c
  | String _ r => last_char r
  end.

(** [n] times the character [ch] *)
Fixpoint repeat_char (ch : ascii) (n : nat) : string :=
  match n with
  | O => EmptyString
  | S n' => String ch (repeat_char ch n')
  end.

(** an ASCII capital letter, A..Z *)
Definition is_upper (c : ascii) : bool :=
  let n := nat_of_ascii c in ((65 <=? n) && (n <=? 90))%nat.

(** a string made of white space only (the empty string is one) *)
Definition all_space (w : string) : bool :=
  forallb Str.isspace (list_ascii_of_string w).

Definition is_dict (v : value) : bool :=
  match v with
  | VDict _ => true
  | _ => false
  end.

(** an element of [choices] the comprehension can shape: a dict whose
    field [k] ([message] or [delta]), when present, is a dict *)
Definition element_ok (k : string) (c : value) : bool :=
  match c with
  | VDict cd =>
      match dict_get k cd with
      | None => true
      | Some v => is_dict v
      end
  | _ => false
  end.

(** the base URL the constructor starts from: [base_url or DEFAULT_BASE_URL] *)
Definition base_url_or_default (base_url : option string) : string :=
  match base_url with
  | None => DEFAULT_BASE_URL
  | Some u => if String.eqb u "" then DEFAULT_BASE_URL else u
  end.

(** the named parameters of [create], which [**kwargs] cannot hold *)
Definition is_named_parameter (k : string) : bool :=
  String.eqb k "model" || String.eqb k "messages" || String.eqb k "stream".



(** keyword arguments, as a dict has them: no key twice *)
Fixpoint distinct_keys (kwargs : dict) : bool :=
  match kwargs with
  | [] => true
  | (k, _) :: rest =>
      negb (existsb (fun kv => String.eqb (fst kv) k) rest) && distinct_keys rest
  end.


(** a server that answers every request 200 with the JSON text [7] *)
Definition seven_server (_ : Request) : reply := Response [] "7".

(** a server that answers every request 500 with the JSON text [[]] *)
Definition array_error_server (_ : Request) : reply :=
  ErrorResponse 500 "Internal Server Error" "[]".

(** *** Inputs of the examples of the specification (section 8) *)

Definition he_line : string :=
  dq "data: {'id':'x','choices':[{'index':0,'delta':{'content':'he'}}]}" ++ Str.nl.

Definition llo_line : string :=
  dq "data: {'id':'x','choices':[{'index':0,'delta':{'content':'llo'}}]}" ++ Str.nl.

Definition done_line : string := "data: [DONE]" ++ Str.nl.

Definition not_json_line : string := "data: not-json" ++ Str.nl.

(** the chunk with id [x] whose single choice, of index 0, has the given
    delta content *)
Definition x_chunk (content : string) : ChatCompletionChunk.t :=
  ChatCompletionChunk.Make (VStr "x") (VStr "chat.completion.chunk") (VStr "")
    [StreamChoice.Make (VInt 0) (DeltaMessage.Make VNone (VStr content)) VNone].

Definition insufficient_funds_body : string :=
  dq "{'code':'INSUFFICIENT_FUNDS','error':'balance too low'}".

Definition zero_client : Paymodel :=
  mkPaymodel "0x0000000000000000000000000000000000000000" DEFAULT_BASE_URL.


(** a server that answers every request 402 with the body above *)
Definition payment_required (_ : Request) : reply :=
  ErrorResponse 402 "Payment Required" insufficient_funds_body.

(** 2000 opening brackets, none closed: not a JSON text, and nested deeper
    than the interpreter goes *)
Definition deep_payload : string := repeat_char "[" 2000.

Definition deep_line : string := "data: " ++ deep_payload ++ Str.nl.

Definition non_hex_payer : string := "0xzzzzzzzzzzzzzzzzzzzzzzzzzzzzzzzzzzzzzzzz".

Definition completion_example : value :=
  VDict [("choices",
          VList [VDict [("index", VInt 0);
                        ("message", VDict [("role", VStr "assistant");
                                           ("content", VStr "hi")]);
                        ("finish_reason", VStr "stop")]]);
         ("usage", VDict [("prompt_tokens", VInt 3);
                          ("completion_tokens", VInt 1);
                          ("total_tokens", VInt 4)]);
         ("id", VStr "abc"); ("model", VStr "m")].

(* ================================================================= *)
(** * The client constructor *)





(** What the constructor checks: a non-empty string that starts with [0x]
    and has 42 characters; nothing else is looked at. *)
Lemma Paymodel_init_accepts (payer : string) (base_url : option string) :
  (exists c, Paymodel_init payer base_url = ret c) <->
  (Str.startswith "0x" payer = true /\ String.length payer = 42%nat).
Proof.
  unfold Paymodel_init, Str.len. split.
  - intros [c H].
    destruct (String.eqb payer "") eqn:E1; [discriminate|].
    destruct (Str.startswith "0x" payer) eqn:E2; [|discriminate].
    destruct (Z.of_nat (String.length payer) =? 42) eqn:E3; [|discriminate].
    split; [reflexivity|]. apply Z.eqb_eq in E3. lia.
  - intros [H1 H2]. rewrite H1, H2.
    destruct payer; [discriminate|]. simpl. eauto.
Qed.

(** Wrong length or missing prefix: the constructor raises [ValueError]. *)
Lemma Paymodel_init_rejects (payer : string) (base_url : option string) :
  Str.startswith "0x" payer = false \/ String.length payer <> 42%nat ->
  Paymodel_init payer base_url =
    raise (ValueError
             "payer must be a valid Ethereum address (0x + 40 hex chars)").
Proof.
  unfold Paymodel_init, Str.len. intros [H|H].
  - rewrite H. now rewrite orb_true_r.
  - destruct (Z.of_nat (String.length payer) =? 42) eqn:E.
    + apply Z.eqb_eq in E. lia.
    + now rewrite !orb_true_r.
Qed.

(** C1, at the input that separates the code from the claim: 40 characters
    [z] after [0x] do not make an identity, and the constructor returns a
    client that stores the string, where the claim has it raise the
    validation error ([ValueError] in this SDK). *)
Theorem Paymodel_init_non_hex_accepted :
  is_identity non_hex_payer = false
  /\ Paymodel_init non_hex_payer None
     = ret (mkPaymodel non_hex_payer DEFAULT_BASE_URL).
Proof. split; reflexivity. Qed.



(* ================================================================= *)
(** * Response shaping *)

Lemma bind_ret_inv {A B} (m : result A) (k : A -> result B) (b : B) :
  bind m k = ret b -> exists a, m = ret a /\ k a = ret b.
Proof. destruct m as [e|a]; simpl; [discriminate | eauto]. Qed.

(** The comprehension keeps the positions: element [k] of the result is
    built from element [k] of the list, with counter [i + k]. *)
Lemma comprehension_nth {A} (f : Z -> value -> result A) :
  forall (l : list value) (i : Z) (out : list A),
    comprehension f i l = ret out ->
    List.length out = List.length l
    /\ forall (k : nat) (c : value),
        nth_error l k = Some c ->
        exists a, nth_error out k = Some a /\ f (i + Z.of_nat k) c = ret a.
Proof.
  induction l as [|c0 l IH]; intros i out H; simpl in H.
  - inversion H; subst. split; [reflexivity|]. intros [|k] c; discriminate.
  - apply bind_ret_inv in H as (a0 & Ha0 & H).
    apply bind_ret_inv in H as (rest & Hrest & H).
    inversion H; subst out; clear H.
    destruct (IH _ _ Hrest) as [Hlen Hnth].
    split; [simpl; congruence|].
    intros [|k] c Hc; simpl in *.
    + inversion Hc; subst c. exists a0. split; [reflexivity|].
      now rewrite Z.add_0_r.
    + destruct (Hnth k c Hc) as (a & Ha & Hf).
      exists a. split; [assumption|].
      now replace (i + Z.pos (Pos.of_succ_nat k)) with (i + 1 + Z.of_nat k) by lia.
Qed.

(** C8: when [usage] is absent from the response object, the three counters
    of the shaped completion are 0; when [usage] is an object, each counter
    it lacks is 0 and each counter it has is kept.  ([cs] is what the
    comprehension over the choices returns.) *)
Theorem ChatCompletion_usage_defaults :
  forall (d : dict) (cs : list Choice.t),
    ChatCompletion.choices_of (VDict d) = ret cs ->
    (dict_get "usage" d = None ->
     exists r,
       ChatCompletion.init (VDict d) = ret r
       /\ ChatCompletion.usage r = Usage.Make (VInt 0) (VInt 0) (VInt 0))
    /\ (forall u,
          dict_get "usage" d = Some (VDict u) ->
          exists r,
            ChatCompletion.init (VDict d) = ret r
            /\ Usage.prompt_tokens (ChatCompletion.usage r)
               = get_default "prompt_tokens" u (VInt 0)
            /\ Usage.completion_tokens (ChatCompletion.usage r)
               = get_default "completion_tokens" u (VInt 0)
            /\ Usage.total_tokens (ChatCompletion.usage r)
               = get_default "total_tokens" u (VInt 0)).
Proof.
  intros d cs Hcs. split.
  - intros Hu. unfold ChatCompletion.init.
    cbn [get bind ret]. rewrite Hcs. cbn [bind]. rewrite Hu. cbn.
    eexists; split; reflexivity.
  - intros u Hu. unfold ChatCompletion.init.
    cbn [get bind ret]. rewrite Hcs. cbn [bind]. rewrite Hu. cbn [get bind ret].
    eexists; split; [reflexivity|]. repeat split.
Qed.

Lemma ChatCompletion_usage_defaults_witness :
  exists r,
    ChatCompletion.init
      (VDict [("id", VStr "abc");
              ("choices", VList [VDict [("message", VDict [("content", VStr "hi")])]])])
    = ret r
    /\ ChatCompletion.usage r = Usage.Make (VInt 0) (VInt 0) (VInt 0).
Proof.
  refine (proj1 (ChatCompletion_usage_defaults
                   [("id", VStr "abc");
                    ("choices", VList [VDict [("message", VDict [("content", VStr "hi")])]])]
                   _ eq_refl) eq_refl).
Defined.

(** The completion example of the specification: one choice with content
    [hi] and finish reason [stop], and 4 tokens in total. *)
Example ChatCompletion_example :
  exists r,
    ChatCompletion.init completion_example = ret r
    /\ ChatCompletion.choices r
       = [Choice.Make (VInt 0)
            (Message.Make (VStr "assistant") (VStr "hi")) (VStr "stop")]
    /\ Usage.total_tokens (ChatCompletion.usage r) = VInt 4.
Proof. eexists. repeat split. Qed.

(** *** The index of a choice *)

Lemma ChatCompletion_choice_index (i : Z) (c : dict) (a : Choice.t) :
  ChatCompletion.choice i (VDict c) = ret a ->
  Choice.index a = get_default "index" c (VInt i).
Proof.
  unfold ChatCompletion.choice. cbn [get bind ret]. intros H.
  repeat (apply bind_ret_inv in H as (? & _ & H)).
  now inversion H.
Qed.

Lemma ChatCompletionChunk_choice_index (i : Z) (c : dict) (a : StreamChoice.t) :
  ChatCompletionChunk.choice i (VDict c) = ret a ->
  StreamChoice.index a = get_default "index" c (VInt i).
Proof.
  unfold ChatCompletionChunk.choice. cbn [get bind ret]. intros H.
  repeat (apply bind_ret_inv in H as (? & _ & H)).
  now inversion H.
Qed.

Lemma ChatCompletion_init_choices (d : dict) (r : ChatCompletion.t) :
  ChatCompletion.init (VDict d) = ret r ->
  ChatCompletion.choices_of (VDict d) = ret (ChatCompletion.choices r).
Proof.
  unfold ChatCompletion.init. cbn [get bind ret]. intros H.
  destruct (ChatCompletion.choices_of (VDict d)) as [e|cs]; [discriminate|].
  cbn [bind] in H.
  repeat (apply bind_ret_inv in H as (? & _ & H)).
  now inversion H.
Qed.

Lemma ChatCompletionChunk_init_choices (d : dict) (r : ChatCompletionChunk.t) :
  ChatCompletionChunk.init (VDict d) = ret r ->
  ChatCompletionChunk.choices_of (VDict d) = ret (ChatCompletionChunk.choices r).
Proof.
  unfold ChatCompletionChunk.init. cbn [get bind ret]. intros H.
  destruct (ChatCompletionChunk.choices_of (VDict d)) as [e|cs]; [discriminate|].
  cbn [bind] in H. now inversion H.
Qed.

Lemma comprehension_all {A} (f : Z -> value -> result A) (ok : value -> bool) :
  (forall i c, ok c = true -> exists a, f i c = ret a) ->
  forall (l : list value) (i : Z),
    forallb ok l = true -> exists out, comprehension f i l = ret out.
Proof.
  intros Hok. induction l as [|c l IH]; intros i H; simpl.
  - now exists [].
  - simpl in H. apply andb_true_iff in H as [Hc Hl].
    destruct (Hok i c Hc) as [a ->]. destruct (IH (i + 1) Hl) as [out ->].
    simpl. eauto.
Qed.

Lemma comprehension_some {A} (f : Z -> value -> result A) (ok : value -> bool)
    (e : exn) :
  (forall i c, ok c = true -> exists a, f i c = ret a) ->
  (forall i c, ok c = false -> f i c = raise e) ->
  forall (l : list value) (i : Z),
    forallb ok l = false -> comprehension f i l = raise e.
Proof.
  intros Hok Hbad. induction l as [|c l IH]; intros i H; simpl in *.
  - discriminate.
  - destruct (ok c) eqn:Hc.
    + destruct (Hok i c Hc) as [a ->]. simpl in *. now rewrite (IH (i + 1) H).
    + now rewrite (Hbad i c Hc).
Qed.

Lemma ChatCompletionChunk_choice_ok (i : Z) (c : value) :
  element_ok "delta" c = true -> exists a, ChatCompletionChunk.choice i c = ret a.
Proof.
  unfold element_ok, ChatCompletionChunk.choice.
  destruct c as [| | | | | |cd]; try discriminate.
  cbn [get bind ret]. destruct (dict_get "delta" cd) as [v|]; intros H.
  - destruct v; try discriminate. simpl. eauto.
  - simpl. eauto.
Qed.

Lemma ChatCompletionChunk_choice_bad (i : Z) (c : value) :
  element_ok "delta" c = false ->
  ChatCompletionChunk.choice i c = raise AttributeError.
Proof.
  unfold element_ok, ChatCompletionChunk.choice.
  destruct c as [| | | | | |cd]; try reflexivity.
  cbn [get bind ret]. destruct (dict_get "delta" cd) as [v|]; intros H.
  - destruct v; try reflexivity. discriminate.
  - discriminate.
Qed.

Lemma ChatCompletion_choice_ok (i : Z) (c : value) :
  element_ok "message" c = true -> exists a, ChatCompletion.choice i c = ret a.
Proof.
  unfold element_ok, ChatCompletion.choice.
  destruct c as [| | | | | |cd]; try discriminate.
  cbn [get bind ret]. destruct (dict_get "message" cd) as [v|]; intros H.
  - destruct v; try discriminate. simpl. eauto.
  - simpl. eauto.
Qed.

Lemma ChatCompletion_choice_bad (i : Z) (c : value) :
  element_ok "message" c = false ->
  ChatCompletion.choice i c = raise AttributeError.
Proof.
  unfold element_ok, ChatCompletion.choice.
  destruct c as [| | | | | |cd]; try reflexivity.
  cbn [get bind ret]. destruct (dict_get "message" cd) as [v|]; intros H.
  - destruct v; try reflexivity. discriminate.
  - discriminate.
Qed.

Lemma iterate_raises (v : value) (e : exn) : iterate v = raise e -> e = TypeError.
Proof. destruct v; simpl; intros H; inversion H; reflexivity. Qed.

(** C10: in a parsed object whose [choices] is an array, the element at
    position [i] (counted from 0) that is an object gives the shaped choice
    at position [i]; the index of that choice is the [index] field of the
    element when it has one, unchanged, and the position [i] when it has
    none.  The same holds for [ChatCompletion] and for
    [ChatCompletionChunk]: each constructor returns such an object when the
    elements are objects whose [message], or [delta], is absent or an
    object (and, for the completion, [usage] is absent or an object), and
    whenever it returns, the choice at position [i] has that index. *)
Theorem choice_index_defaults_to_position :
  forall (d : dict) (items : list value) (i : nat) (c : dict),
    dict_get "choices" d = Some (VList items) ->
    nth_error items i = Some (VDict c) ->
    (forallb (element_ok "message") items = true ->
     is_dict (get_default "usage" d (VDict [])) = true ->
     exists r ch,
       ChatCompletion.init (VDict d) = ret r
       /\ nth_error (ChatCompletion.choices r) i = Some ch
       /\ Choice.index ch
          = match dict_get "index" c with
            | Some v => v
            | None => VInt (Z.of_nat i)
            end)
    /\ (forallb (element_ok "delta") items = true ->
        exists k ch,
          ChatCompletionChunk.init (VDict d) = ret k
          /\ nth_error (ChatCompletionChunk.choices k) i = Some ch
          /\ StreamChoice.index ch
             = match dict_get "index" c with
               | Some v => v
               | None => VInt (Z.of_nat i)
               end)
    /\ (forall r,
          ChatCompletion.init (VDict d) = ret r ->
          List.length (ChatCompletion.choices r) = List.length items
          /\ exists ch,
              nth_error (ChatCompletion.choices r) i = Some ch
              /\ Choice.index ch
                 = match dict_get "index" c with
                   | Some v => v
                   | None => VInt (Z.of_nat i)
                   end)
    /\ (forall k,
          ChatCompletionChunk.init (VDict d) = ret k ->
          List.length (ChatCompletionChunk.choices k) = List.length items
          /\ exists ch,
              nth_error (ChatCompletionChunk.choices k) i = Some ch
              /\ StreamChoice.index ch
                 = match dict_get "index" c with
                   | Some v => v
                   | None => VInt (Z.of_nat i)
                   end).
Proof.
  intros d items i c Hd Hi.
  assert (Hcompletion :
            forall r,
              ChatCompletion.init (VDict d) = ret r ->
              List.length (ChatCompletion.choices r) = List.length items
              /\ exists ch,
                  nth_error (ChatCompletion.choices r) i = Some ch
                  /\ Choice.index ch = get_default "index" c (VInt (Z.of_nat i))).
  { intros r Hr. apply ChatCompletion_init_choices in Hr.
    unfold ChatCompletion.choices_of in Hr. cbn [get bind ret] in Hr.
    rewrite Hd in Hr. cbn [iterate bind ret] in Hr.
    destruct (comprehension_nth _ _ _ _ Hr) as [Hlen Hnth].
    split; [exact Hlen|].
    destruct (Hnth i _ Hi) as (ch & Hch & Hf).
    exists ch. split; [exact Hch|].
    now apply ChatCompletion_choice_index in Hf. }
  assert (Hchunk :
            forall k,
              ChatCompletionChunk.init (VDict d) = ret k ->
              List.length (ChatCompletionChunk.choices k) = List.length items
              /\ exists ch,
                  nth_error (ChatCompletionChunk.choices k) i = Some ch
                  /\ StreamChoice.index ch
                     = get_default "index" c (VInt (Z.of_nat i))).
  { intros k Hk. apply ChatCompletionChunk_init_choices in Hk.
    unfold ChatCompletionChunk.choices_of in Hk. cbn [get bind ret] in Hk.
    rewrite Hd in Hk. cbn [iterate bind ret] in Hk.
    destruct (comprehension_nth _ _ _ _ Hk) as [Hlen Hnth].
    split; [exact Hlen|].
    destruct (Hnth i _ Hi) as (ch & Hch & Hf).
    exists ch. split; [exact Hch|].
    now apply ChatCompletionChunk_choice_index in Hf. }
  split; [|split; [|split; [exact Hcompletion | exact Hchunk]]].
  - intros Hok Hu.
    destruct (comprehension_all ChatCompletion.choice (element_ok "message")
                ChatCompletion_choice_ok items 0 Hok) as [out Hout].
    assert (Hr : exists r, ChatCompletion.init (VDict d) = ret r).
    { unfold ChatCompletion.init, ChatCompletion.choices_of.
      cbn [get bind ret]. rewrite Hd. cbn [iterate bind ret]. rewrite Hout.
      cbn [bind]. fold (get_default "usage" d (VDict [])).
      destruct (get_default "usage" d (VDict [])); try discriminate Hu.
      cbn [get bind ret]. eexists. reflexivity. }
    destruct Hr as [r Hr]. destruct (Hcompletion r Hr) as (_ & ch & Hch & Hidx).
    exists r, ch. repeat split; assumption.
  - intros Hok.
    destruct (comprehension_all ChatCompletionChunk.choice (element_ok "delta")
                ChatCompletionChunk_choice_ok items 0 Hok) as [out Hout].
    assert (Hk : exists k, ChatCompletionChunk.init (VDict d) = ret k).
    { unfold ChatCompletionChunk.init, ChatCompletionChunk.choices_of.
      cbn [get bind ret]. rewrite Hd. cbn [iterate bind ret]. rewrite Hout.
      cbn [bind]. eexists. reflexivity. }
    destruct Hk as [k Hk]. destruct (Hchunk k Hk) as (_ & ch & Hch & Hidx).
    exists k, ch. repeat split; assumption.
Qed.

Lemma choice_index_defaults_to_position_witness :
  (exists r ch,
      ChatCompletion.init
        (VDict [("choices", VList [VDict [("index", VInt 7)]; VDict []])]) = ret r
      /\ nth_error (ChatCompletion.choices r) 1 = Some ch
      /\ Choice.index ch = VInt 1)
  /\ (exists k ch,
        ChatCompletionChunk.init
          (VDict [("choices", VList [VDict [("index", VInt 7)]; VDict []])]) = ret k
        /\ nth_error (ChatCompletionChunk.choices k) 1 = Some ch
        /\ StreamChoice.index ch = VInt 1).
Proof.
  destruct (choice_index_defaults_to_position
              [("choices", VList [VDict [("index", VInt 7)]; VDict []])]
              [VDict [("index", VInt 7)]; VDict []] 1 []
              eq_refl eq_refl) as (H1 & H2 & _).
  split; [exact (H1 eq_refl eq_refl) | exact (H2 eq_refl)].
Defined.

(* ================================================================= *)
(** * The stream decoder *)

Lemma append_nil_r (s : string) : s ++ "" = s.
Proof. induction s; simpl; congruence. Qed.

Lemma append_assoc (a b c : string) : (a ++ b) ++ c = a ++ b ++ c.
Proof. induction a; simpl; congruence. Qed.

Section Decoder.

Variable loads : string -> result value.

Lemma split_nl_length (s l r : string) :
  Str.split_nl s = Some (l, r) -> (String.length r < String.length s)%nat.
Proof.
  revert l. induction s as [|c s IH]; simpl; intros l H; [discriminate|].
  destruct (Ascii.eqb c Str.newline).
  - inversion H; subst. lia.
  - destruct (Str.split_nl s) as [[a b]|]; [|discriminate].
    inversion H; subst. specialize (IH a eq_refl). lia.
Qed.

Lemma lines_of_split (s : string) :
  match Str.split_nl s with
  | Some (l, r) => lines_of s = (l :: fst (lines_of r), snd (lines_of r))
  | None => lines_of s = ([], s)
  end.
Proof.
  induction s as [|c s IH]; simpl; [reflexivity|].
  destruct (Ascii.eqb c Str.newline).
  - now destruct (lines_of s).
  - destruct (Str.split_nl s) as [[a b]|]; rewrite IH; reflexivity.
Qed.

Lemma lines_of_rest (s : string) : one_line (snd (lines_of s)).
Proof.
  unfold one_line. induction s as [|c s IH]; simpl; [reflexivity|].
  destruct (lines_of s) as [ls rest]. simpl in IH.
  destruct (Ascii.eqb c Str.newline) eqn:E; [exact IH|].
  destruct ls; simpl; [now rewrite E, IH | exact IH].
Qed.

Lemma lines_of_one_line (l : string) : one_line l -> lines_of l = ([], l).
Proof.
  unfold one_line. intros H. pose proof (lines_of_split l) as L.
  now rewrite H in L.
Qed.

Lemma lines_of_app (a b : string) :
  lines_of (a ++ b)
  = ((fst (lines_of a) ++ fst (lines_of (snd (lines_of a) ++ b)))%list,
     snd (lines_of (snd (lines_of a) ++ b))).
Proof.
  induction a as [|c a IH]; simpl.
  - now destruct (lines_of b).
  - rewrite IH. destruct (lines_of a) as [la ra]. simpl.
    destruct (Ascii.eqb c Str.newline) eqn:E; simpl; [reflexivity|].
    destruct la as [|l la]; simpl.
    + rewrite E. now destruct (lines_of (ra ++ b)) as [[|l lb] rb].
    + reflexivity.
Qed.

Lemma on_lines_app (a b : list string) :
  on_lines loads (a ++ b)
  = match on_lines loads a with
    | (out, Some fin) => (out, Some fin)
    | (out, None) =>
        let '(out', fin) := on_lines loads b in ((out ++ out')%list, fin)
    end.
Proof.
  induction a as [|l a IH]; simpl.
  - now destruct (on_lines loads b).
  - destruct (on_line loads l) as [out [fin|]]; [reflexivity|].
    rewrite IH. destruct (on_lines loads a) as [out1 [fin|]]; [reflexivity|].
    destruct (on_lines loads b) as [out2 fin]. now rewrite app_assoc.
Qed.

(** The [while] loop handles the complete lines of the buffer, in order,
    and leaves the text after the last newline: the fuel is never used
    up. *)
Lemma drain_fuel (fuel : nat) (buffer : string) :
  (String.length buffer < fuel)%nat ->
  match on_lines loads (fst (lines_of buffer)) with
  | (out, Some fin) =>
      exists b, drain loads fuel buffer = (out, Some fin, b)
  | (out, None) =>
      drain loads fuel buffer = (out, None, snd (lines_of buffer))
  end.
Proof.
  revert buffer. induction fuel as [|fuel IH]; intros buffer Hlen; [lia|].
  simpl. pose proof (lines_of_split buffer) as L.
  destruct (Str.split_nl buffer) as [[l r]|] eqn:E.
  - rewrite L. simpl.
    destruct (on_line loads l) as [out [fin|]]; [eauto|].
    apply split_nl_length in E.
    assert (Hr : (String.length r < fuel)%nat) by lia.
    specialize (IH r Hr).
    destruct (on_lines loads (fst (lines_of r))) as [out' [fin|]].
    + destruct IH as [b ->]. eauto.
    + now rewrite IH.
  - rewrite L. reflexivity.
Qed.

(** The run depends on the text only, not on the way it is cut into
    reads. *)
Lemma for_raw_lines_text (resp : list string) :
  forall buffer,
    one_line buffer ->
    for_raw_lines loads buffer resp = text_run loads (buffer ++ text_of resp).
Proof.
  induction resp as [|line resp IH]; intros buffer Hb;
    cbn [for_raw_lines text_of].
  - unfold text_run. rewrite (lines_of_one_line (buffer ++ "")).
    + reflexivity.
    + now rewrite append_nil_r.
  - pose proof (drain_fuel (S (String.length (buffer ++ line))) (buffer ++ line)
                  (Nat.lt_succ_diag_r _)) as D.
    unfold text_run.
    rewrite <- append_assoc, (lines_of_app (buffer ++ line)). simpl fst.
    rewrite on_lines_app.
    destruct (on_lines loads (fst (lines_of (buffer ++ line)))) as [out [fin|]].
    + destruct D as [b ->]. reflexivity.
    + rewrite D. rewrite (IH _ (lines_of_rest _)). unfold text_run.
      now destruct (on_lines loads _) as [out' o].
Qed.

Lemma decode_text (resp : list string) :
  decode loads resp = text_run loads (text_of resp).
Proof. apply (for_raw_lines_text resp ""). reflexivity. Qed.

(** The lines of a response add up to its body, so [_stream] on a response
    is the run on the text of its body. *)
Lemma readlines_text (s : string) : text_of (readlines s) = s.
Proof.
  induction s as [|c s IH]; simpl; [reflexivity|].
  destruct (Ascii.eqb c Str.newline); simpl; [now rewrite IH|].
  destruct (readlines s) as [|l ls]; simpl in *; now rewrite <- IH.
Qed.

Lemma _stream_text (dumps : value -> string) (urlopen : Request -> reply)
    (client : Paymodel) (body : value) (headers : list (string * string))
    (text : string) :
  urlopen (post_request dumps client "/v1/chat/completions" body)
  = Response headers text ->
  _stream loads dumps urlopen client body = text_run loads text.
Proof.
  unfold _stream. intros ->. now rewrite decode_text, readlines_text.
Qed.

(** A line followed by a newline is the next line extracted. *)
Lemma split_nl_line (l post : string) :
  one_line l -> Str.split_nl (l ++ Str.nl ++ post) = Some (l, post).
Proof.
  unfold one_line.
  change (Str.nl ++ post) with (String Str.newline post).
  induction l as [|c l IH]; cbn [Str.split_nl append].
  - now rewrite Ascii.eqb_refl.
  - destruct (Ascii.eqb c Str.newline); [discriminate|].
    destruct (Str.split_nl l) as [[a b]|]; [discriminate|].
    intros _. now rewrite IH.
Qed.

(** The lines of a text cut at a line boundary. *)
Lemma lines_of_at_line (pre l post : string) :
  at_line_start pre -> one_line l ->
  fst (lines_of (pre ++ l ++ Str.nl ++ post))
  = (fst (lines_of pre) ++ l :: fst (lines_of post))%list.
Proof.
  unfold at_line_start. intros Hpre Hl.
  rewrite lines_of_app, Hpre. cbn [fst snd append].
  pose proof (lines_of_split (l ++ Str.nl ++ post)) as L.
  rewrite (split_nl_line l post Hl) in L. now rewrite L.
Qed.

Lemma lines_of_at_line_start (pre post : string) :
  at_line_start pre ->
  fst (lines_of (pre ++ post))
  = (fst (lines_of pre) ++ fst (lines_of post))%list.
Proof.
  unfold at_line_start. intros Hpre. now rewrite lines_of_app, Hpre.
Qed.

Lemma yields_app (a b : list action) :
  yields (a ++ b) = (yields a ++ yields b)%list.
Proof.
  induction a as [|[p|c] a IH]; simpl; [reflexivity | exact IH | now rewrite IH].
Qed.

Lemma parsed_app (a b : list action) :
  parsed (a ++ b) = (parsed a ++ parsed b)%list.
Proof.
  induction a as [|[p|c] a IH]; simpl; [reflexivity | now rewrite IH | exact IH].
Qed.

(** What the loop body does with a line, case by case. *)
Lemma on_line_cases (l : string) :
  on_line loads l = ([], None)
  \/ on_line loads l = ([], Some Returned)
  \/ exists payload,
      payload <> "[DONE]"
      /\ (on_line loads l = ([Parse payload], None)
          \/ (exists e,
                 e <> JSONDecodeError
                 /\ on_line loads l = ([Parse payload], Some (Raised e)))
          \/ (exists c, on_line loads l = ([Parse payload; Yield c], None))).
Proof.
  unfold on_line.
  destruct (Str.startswith "data: " (Str.strip l)); [|now left].
  simpl negb. cbv iota.
  destruct (String.eqb_spec (Str.drop 6 (Str.strip l)) "[DONE]") as [E|E];
    [now right; left|].
  right; right. exists (Str.drop 6 (Str.strip l)). split; [exact E|].
  destruct (bind _ _) as [e|c]; [|right; right; eauto].
  destruct e;
    try (right; left; eexists; split; [|reflexivity]; discriminate).
  now left.
Qed.

Lemma on_line_sentinel (l : string) :
  Str.strip l = "data: [DONE]" -> on_line loads l = ([], Some Returned).
Proof. unfold on_line. now intros ->. Qed.

Lemma on_line_payload (l payload : string) :
  Str.strip l = "data: " ++ payload ->
  payload <> "[DONE]" ->
  on_line loads l
  = match (chunk_data <- loads payload ;;
           ChatCompletionChunk.init chunk_data) with
    | inr chunk => ([Parse payload; Yield chunk], None)
    | inl JSONDecodeError => ([Parse payload], None)
    | inl e => ([Parse payload], Some (Raised e))
    end.
Proof.
  unfold on_line. intros -> Hp.
  change (Str.startswith "data: " ("data: " ++ payload)) with true.
  change (Str.drop 6 ("data: " ++ payload)) with payload.
  apply String.eqb_neq in Hp. now rewrite Hp.
Qed.

Lemma on_line_malformed (l payload : string) :
  Str.strip l = "data: " ++ payload ->
  payload <> "[DONE]" ->
  loads payload = raise JSONDecodeError ->
  on_line loads l = ([Parse payload], None).
Proof.
  intros Hs Hp Hl. rewrite (on_line_payload l payload Hs Hp). now rewrite Hl.
Qed.

Lemma on_line_data (l : string) (c : ChatCompletionChunk.t) :
  data_line loads l c ->
  exists payload, on_line loads l = ([Parse payload; Yield c], None).
Proof.
  intros (payload & v & Hs & Hp & Hl & Hc). exists payload.
  rewrite (on_line_payload l payload Hs Hp), Hl. cbn [bind ret].
  now rewrite Hc.
Qed.

Lemma on_lines_parsed (ls : list string) :
  ~ In "[DONE]" (parsed (fst (on_lines loads ls))).
Proof.
  induction ls as [|l ls IH]; simpl; [tauto|].
  assert (H : ~ In "[DONE]" (parsed (fst (on_line loads l)))).
  { destruct (on_line_cases l)
      as [-> | [-> | (p & Hp & [-> | [(e & _ & ->) | [c ->]]])]];
      simpl; intuition congruence. }
  destruct (on_line loads l) as [out [fin|]]; [exact H|].
  destruct (on_lines loads ls) as [out' fin]. simpl in *.
  rewrite parsed_app, in_app_iff. tauto.
Qed.

(** The loop body never ends the generator by exhaustion. *)
Lemma on_lines_ending (ls : list string) (out : list action) (fin : finish) :
  on_lines loads ls = (out, Some fin) -> fin <> Exhausted.
Proof.
  revert out. induction ls as [|l ls IH]; simpl; intros out H; [discriminate|].
  destruct (on_line_cases l)
    as [E | [E | (p & _ & [E | [(e & _ & E) | [c E]]])]];
    rewrite E in H.
  - destruct (on_lines loads ls) as [out' [f|]]; inversion H; subst. eauto.
  - inversion H; discriminate.
  - destruct (on_lines loads ls) as [out' [f|]]; inversion H; subst. eauto.
  - inversion H; discriminate.
  - destruct (on_lines loads ls) as [out' [f|]]; inversion H; subst. eauto.
Qed.

(** Well-formed lines yield their chunks, one after the other. *)
Lemma on_lines_data (ls : list string) (cs : list ChatCompletionChunk.t) :
  Forall2 (data_line loads) ls cs ->
  exists out, on_lines loads ls = (out, None) /\ yields out = cs.
Proof.
  induction 1 as [|l c ls cs Hd _ (out & Hout & Hy)]; simpl.
  - now exists [].
  - destruct (on_line_data l c Hd) as [p Hl].
    rewrite Hl, Hout. eexists. split; [reflexivity|]. simpl. now rewrite Hy.
Qed.

(** The sentinel payload is never handed to [json.loads]. *)
Lemma sentinel_never_parsed (resp : list string) :
  ~ In "[DONE]" (parsed (fst (decode loads resp))).
Proof.
  rewrite decode_text. unfold text_run.
  pose proof (on_lines_parsed (fst (lines_of (text_of resp)))) as H.
  now destruct (on_lines loads _).
Qed.

End Decoder.

(** C5: when the text received holds, at a line boundary, a line whose
    trimmed form is [data: [DONE]], whatever follows that line plays no
    part: the run does what it does on the text before the line and nothing
    more, so no chunk comes from the remaining input; the generator ends
    (by [return], unless it had ended before reaching the line) and never
    goes on to the end of the input; and on no input is [[DONE]] handed to
    [json.loads]. *)
Theorem sentinel_ends_stream :
  forall (loads : string -> result value) (resp : list string)
         (pre l post : string),
    at_line_start pre ->
    one_line l ->
    Str.strip l = "data: [DONE]" ->
    text_of resp = pre ++ l ++ Str.nl ++ post ->
    fst (decode loads resp) = fst (decode loads [pre])
    /\ yields (fst (decode loads resp)) = yields (fst (decode loads [pre]))
    /\ snd (decode loads resp)
       = match snd (decode loads [pre]) with
         | Exhausted => Returned
         | fin => fin
         end
    /\ snd (decode loads resp) <> Exhausted
    /\ (forall resp', ~ In "[DONE]" (parsed (fst (decode loads resp')))).
Proof.
  intros loads resp pre l post Hpre Hl Hs Ht.
  assert (H : fst (decode loads resp) = fst (decode loads [pre])
              /\ snd (decode loads resp)
                 = match snd (decode loads [pre]) with
                   | Exhausted => Returned
                   | fin => fin
                   end
              /\ snd (decode loads resp) <> Exhausted).
  { rewrite !decode_text. simpl text_of. rewrite append_nil_r, Ht.
    unfold text_run. rewrite (lines_of_at_line pre l post Hpre Hl).
    rewrite on_lines_app.
    destruct (on_lines loads (fst (lines_of pre))) as [out [fin|]] eqn:E.
    - simpl. pose proof (on_lines_ending loads _ _ _ E) as Hf.
      repeat split; [now destruct fin | exact Hf].
    - simpl. rewrite (on_line_sentinel loads l Hs). simpl.
      rewrite app_nil_r. repeat split. discriminate. }
  destruct H as (H1 & H2 & H3).
  repeat split; try assumption.
  - now rewrite H1.
  - intros resp'. apply sentinel_never_parsed.
Qed.

Lemma sentinel_ends_stream_witness :
  yields (fst (decode Json.loads [he_line; done_line; llo_line]))
  = yields (fst (decode Json.loads [he_line]))
  /\ snd (decode Json.loads [he_line; done_line; llo_line]) = Returned.
Proof.
  destruct (sentinel_ends_stream Json.loads [he_line; done_line; llo_line]
              he_line "data: [DONE]" llo_line
              eq_refl eq_refl eq_refl eq_refl) as (_ & Hy & Hf & _).
  split; [exact Hy | exact Hf].
Defined.

(** C6: on the three lines of the example, each ended by a newline, the
    decoder yields exactly two chunks, whose single choice has delta
    content [he] and then [llo], and returns at the sentinel; the same run
    is what [_stream] gives on a response with these three lines. *)
Theorem stream_he_llo_done :
  readlines (he_line ++ llo_line ++ done_line) = [he_line; llo_line; done_line]
  /\ yields (fst (decode Json.loads [he_line; llo_line; done_line]))
     = [x_chunk "he"; x_chunk "llo"]
  /\ snd (decode Json.loads [he_line; llo_line; done_line]) = Returned
  /\ forall dumps headers client body,
      let g := _stream Json.loads dumps
                 (fun _ => Response headers (he_line ++ llo_line ++ done_line))
                 client body in
      yields (fst g) = [x_chunk "he"; x_chunk "llo"] /\ snd g = Returned.
Proof.
  repeat split; vm_compute; reflexivity.
Qed.

(** C7, as the code has it: a line of the stream whose payload after
    [data: ] makes [json.loads] raise [JSONDecodeError] yields no chunk and
    raises nothing, the loop goes on; the chunks yielded and the way the
    generator ends are those of the same stream without that line; and in a
    run that reaches the line, the well-formed [data: ] lines that follow
    it yield their chunks, in order, right after the chunks yielded before
    the line. *)
Theorem malformed_line_skipped :
  forall (loads : string -> result value) (resp resp' : list string)
         (pre l post payload : string),
    at_line_start pre ->
    one_line l ->
    Str.strip l = "data: " ++ payload ->
    payload <> "[DONE]" ->
    loads payload = raise JSONDecodeError ->
    text_of resp = pre ++ l ++ Str.nl ++ post ->
    text_of resp' = pre ++ post ->
    on_line loads l = ([Parse payload], None)
    /\ yields (fst (decode loads resp)) = yields (fst (decode loads resp'))
    /\ snd (decode loads resp) = snd (decode loads resp')
    /\ (forall ls rest cs,
          snd (decode loads [pre]) = Exhausted ->
          fst (lines_of post) = (ls ++ rest)%list ->
          Forall2 (data_line loads) ls cs ->
          exists more,
            yields (fst (decode loads resp))
            = (yields (fst (decode loads [pre])) ++ cs ++ more)%list).
Proof.
  intros loads resp resp' pre l post payload Hpre Hl Hs Hp Hj Ht Ht'.
  pose proof (on_line_malformed loads l payload Hs Hp Hj) as Hline.
  split; [exact Hline|].
  rewrite !decode_text, Ht, Ht'. simpl text_of. rewrite append_nil_r.
  unfold text_run.
  rewrite (lines_of_at_line pre l post Hpre Hl).
  rewrite (lines_of_at_line_start pre post Hpre).
  rewrite !on_lines_app.
  destruct (on_lines loads (fst (lines_of pre))) as [out [fin|]] eqn:E.
  - split; [reflexivity|]. split; [reflexivity|].
    intros ls rest cs Hex _ _. simpl in Hex. subst fin.
    now apply on_lines_ending in E.
  - cbn [on_lines]. rewrite Hline.
    destruct (on_lines loads (fst (lines_of post))) as [out' o] eqn:E'.
    cbn [fst snd]. rewrite !yields_app.
    split; [reflexivity|]. split; [reflexivity|].
    intros ls rest cs _ Hls Hdata.
    destruct (on_lines_data loads _ _ Hdata) as (out2 & Hout2 & Hy).
    rewrite Hls, on_lines_app, Hout2 in E'.
    destruct (on_lines loads rest) as [out3 o3].
    inversion E'; subst. exists (yields out3).
    simpl. now rewrite yields_app.
Qed.

Lemma malformed_line_skipped_witness :
  on_line Json.loads "data: not-json" = ([Parse "not-json"], None)
  /\ yields (fst (decode Json.loads [he_line; not_json_line; llo_line; done_line]))
     = [x_chunk "he"; x_chunk "llo"]
  /\ snd (decode Json.loads [he_line; not_json_line; llo_line; done_line])
     = snd (decode Json.loads [he_line; llo_line; done_line])
  /\ exists more,
      yields (fst (decode Json.loads [he_line; not_json_line; llo_line; done_line]))
      = (yields (fst (decode Json.loads [he_line])) ++ [x_chunk "llo"] ++ more)%list.
Proof.
  destruct (malformed_line_skipped Json.loads
              [he_line; not_json_line; llo_line; done_line]
              [he_line; llo_line; done_line]
              he_line "data: not-json" (llo_line ++ done_line) "not-json"
              eq_refl eq_refl eq_refl) as (H1 & H2 & H3 & H4).
  - discriminate.
  - reflexivity.
  - reflexivity.
  - reflexivity.
  - split; [exact H1|]. split; [rewrite H2; reflexivity|]. split; [exact H3|].
    apply (H4 [dq "data: {'id':'x','choices':[{'index':0,'delta':{'content':'llo'}}]}"]
              ["data: [DONE]"] [x_chunk "llo"] eq_refl eq_refl).
    constructor; [|constructor].
    exists (dq "{'id':'x','choices':[{'index':0,'delta':{'content':'llo'}}]}").
    eexists. split; [reflexivity|]. split; [discriminate|].
    split; reflexivity.
Defined.

(** Brackets nested deeper than the levels available make the decoder
    raise [RecursionError], whatever the number of levels. *)
Lemma deep_brackets_scan (depth : nat) :
  forall (n fuel : nat),
    (depth < n)%nat -> (2 * depth < fuel)%nat ->
    Json.scan_once fuel depth (repeat_char "[" n) = raise RecursionError.
Proof.
  induction depth as [|d IH]; intros n fuel Hn Hf.
  - destruct n as [|n]; [lia|]. destruct fuel as [|f]; [lia|]. reflexivity.
  - destruct n as [|[|n]]; try lia.
    destruct fuel as [|[|f]]; try lia.
    change (repeat_char "[" (S (S n)))
      with (String "[" (String "[" (repeat_char "[" n))).
    cbn [Json.scan_once]. change (Json.code_is "[" 34) with false.
    change (Json.code_is "[" 123) with false.
    change (Json.code_is "[" 91) with true. cbv iota.
    change (Json.skip_ws (String "[" (repeat_char "[" n)))
      with (String "[" (repeat_char "[" n)).
    cbv iota. change (Json.code_is "[" 93) with false. cbv iota.
    cbn [Json.elements].
    change (String "[" (repeat_char "[" n)) with (repeat_char "[" (S n)).
    rewrite (IH (S n) f); [reflexivity | lia | lia].
Qed.

Lemma repeat_char_length (ch : ascii) (n : nat) :
  String.length (repeat_char ch n) = n.
Proof. induction n; simpl; congruence. Qed.

Lemma deep_brackets_raise (depth n : nat) :
  (depth < n)%nat ->
  Json.loads_within depth (repeat_char "[" n) = raise RecursionError.
Proof.
  intros Hn. unfold Json.loads_within.
  assert (Hs : Json.skip_ws (repeat_char "[" n) = repeat_char "[" n).
  { destruct n; reflexivity. }
  rewrite Hs, deep_brackets_scan; [reflexivity | exact Hn|].
  rewrite repeat_char_length. lia.
Qed.

(** C7, as stated, fails: 2000 opening brackets are not a JSON text (a
    decoder free to go 5000 levels deep rejects them with
    [JSONDecodeError]), yet on the line [data: ] followed by them
    [json.loads] raises [RecursionError], which the loop does not catch:
    the generator ends with that exception, and the well-formed line that
    follows yields no chunk. *)
Lemma malformed_line_skipped_counterexample :
  Json.loads_within 5000 deep_payload = raise JSONDecodeError
  /\ Json.loads deep_payload = raise RecursionError
  /\ on_line Json.loads ("data: " ++ deep_payload)
     = ([Parse deep_payload], Some (Raised RecursionError))
  /\ decode Json.loads [deep_line; he_line]
     = ([Parse deep_payload], Raised RecursionError)
  /\ yields (fst (decode Json.loads [he_line])) = [x_chunk "he"].
Proof.
  repeat split; vm_compute; reflexivity.
Qed.

(* ================================================================= *)
(** * Transport and error mapping *)

Section ErrorMapping.

Variable loads : string -> result value.
Variable dumps : value -> string.
Variable urlopen : Request -> reply.
Variable self : Paymodel.

(** the status, reason and body of the error the server answers with *)
Variables (code : Z) (msg text : string).
Hypothesis answer : forall req, urlopen req = ErrorResponse code msg text.

Lemma _get_receive (path : string) :
  _get loads urlopen self path = receive loads (ErrorResponse code msg text).
Proof. unfold _get. now rewrite answer. Qed.

Lemma _post_receive (path : string) (body : value) :
  _post loads dumps urlopen self path body
  = receive loads (ErrorResponse code msg text).
Proof. unfold _post. now rewrite answer. Qed.

(** Every operation ends with the exception [receive] raises. *)
Lemma operations_raise (e : exn) :
  receive loads (ErrorResponse code msg text) = raise e ->
  (forall path, _get loads urlopen self path = raise e)
  /\ (forall path body, _post loads dumps urlopen self path body = raise e)
  /\ balance loads urlopen self = raise e
  /\ (forall tx_hash, deposit loads dumps urlopen self tx_hash = raise e)
  /\ models loads urlopen self = raise e
  /\ usage loads urlopen self = raise e
  /\ (forall body, _request loads dumps urlopen self body = raise e).
Proof.
  intros H.
  unfold balance, deposit, models, usage, _request.
  repeat split; intros;
    rewrite ?_get_receive, ?_post_receive, H; reflexivity.
Qed.

End ErrorMapping.





(** C4: when the body of a non-2xx response parses as an object with the
    fields [code] and [error], [_get] and [_post] raise a [PaymodelError]
    whose code is the value of [code], whose message is the value of
    [error] and whose data is the whole parsed body; and the body
    [{"code":"INSUFFICIENT_FUNDS","error":"balance too low"}] gives the code
    [INSUFFICIENT_FUNDS] and the message [balance too low]. *)
Theorem error_body_code_and_message :
  forall (loads : string -> result value) (dumps : value -> string)
         (urlopen : Request -> reply) (self : Paymodel)
         (code : Z) (msg text : string) (d : dict) (c m : value),
    (forall req, urlopen req = ErrorResponse code msg text) ->
    loads text = ret (VDict d) ->
    dict_get "code" d = Some c ->
    dict_get "error" d = Some m ->
    (forall path,
        _get loads urlopen self path = raise (PaymodelError c m (VDict d)))
    /\ (forall path body,
          _post loads dumps urlopen self path body
          = raise (PaymodelError c m (VDict d)))
    /\ (forall status reason,
          receive Json.loads (ErrorResponse status reason insufficient_funds_body)
          = raise (PaymodelError (VStr "INSUFFICIENT_FUNDS")
                     (VStr "balance too low")
                     (VDict [("code", VStr "INSUFFICIENT_FUNDS");
                             ("error", VStr "balance too low")]))).
Proof.
  intros loads dumps urlopen self code msg text d c m Hans Hl Hc Hm.
  destruct (operations_raise loads dumps urlopen self code msg text Hans
              (PaymodelError c m (VDict d))) as (Hg & Hp & _).
  - simpl. rewrite Hl. cbn [get bind ret]. now rewrite Hc, Hm.
  - split; [exact Hg|]. split; [exact Hp|]. intros status reason. reflexivity.
Qed.

Lemma error_body_code_and_message_witness :
  _post Json.loads (fun _ => "") payment_required zero_client
    "/v1/chat/completions" (VDict [])
  = raise (PaymodelError (VStr "INSUFFICIENT_FUNDS") (VStr "balance too low")
             (VDict [("code", VStr "INSUFFICIENT_FUNDS");
                     ("error", VStr "balance too low")])).
Proof.
  exact (proj1 (proj2 (error_body_code_and_message Json.loads (fun _ => "")
                         payment_required zero_client 402 "Payment Required"
                         insufficient_funds_body _ _ _
                         (fun _ => eq_refl) eq_refl eq_refl eq_refl))
           "/v1/chat/completions" (VDict [])).
Defined.

(* ================================================================= *)
(** * Further properties of the constructor *)

Lemma lower_length (s : string) : String.length (Str.lower s) = String.length s.
Proof. induction s; simpl; congruence. Qed.

Lemma lower_char_idempotent (c : ascii) :
  Str.lower_char (Str.lower_char c) = Str.lower_char c.
Proof. destruct c as [[] [] [] [] [] [] [] []]; reflexivity. Qed.

Lemma lower_char_not_upper (c : ascii) : is_upper (Str.lower_char c) = false.
Proof. destruct c as [[] [] [] [] [] [] [] []]; reflexivity. Qed.

Lemma lower_idempotent (s : string) : Str.lower (Str.lower s) = Str.lower s.
Proof.
  induction s as [|c s IH]; simpl; [reflexivity|].
  now rewrite lower_char_idempotent, IH.
Qed.

Lemma lower_no_upper (s : string) :
  existsb is_upper (list_ascii_of_string (Str.lower s)) = false.
Proof.
  induction s as [|c s IH]; simpl; [reflexivity|].
  now rewrite lower_char_not_upper, IH.
Qed.

Lemma startswith_0x_inv (s : string) :
  Str.startswith "0x" s = true -> exists r, s = String "0" (String "x" r).
Proof.
  destruct s as [|a [|b r]]; cbn [Str.startswith].
  - discriminate.
  - destruct (Ascii.eqb "0" a); discriminate.
  - destruct (Ascii.eqb_spec "0" a) as [<-|]; [|discriminate].
    destruct (Ascii.eqb_spec "x" b) as [<-|]; [|discriminate].
    eauto.
Qed.

Lemma Paymodel_init_inv (payer : string) (base_url : option string)
    (self : Paymodel) :
  Paymodel_init payer base_url = ret self ->
  Str.startswith "0x" payer = true
  /\ String.length payer = 42%nat
  /\ self = mkPaymodel (Str.lower payer)
              (Str.rstrip_char "/" (base_url_or_default base_url)).
Proof.
  intros H.
  destruct (proj1 (Paymodel_init_accepts payer base_url) (ex_intro _ self H))
    as [H1 H2].
  split; [exact H1|]. split; [exact H2|].
  unfold Paymodel_init in H.
  destruct (_ || _ || _); [discriminate|].
  inversion H. reflexivity.
Qed.

(** X1: the identity a client holds.  Whatever string of code points below
    256 (the strings of this development) the constructor accepts, the
    stored identity has 42 characters, starts with [0x], has no capital
    letter A..Z and is left as it is by [lower]: it is the accepted string
    in lower case. *)
Theorem Paymodel_payer_normalised :
  forall (payer : string) (base_url : option string) (self : Paymodel),
    Paymodel_init payer base_url = ret self ->
    _payer self = Str.lower payer
    /\ String.length (_payer self) = 42%nat
    /\ Str.startswith "0x" (_payer self) = true
    /\ existsb is_upper (list_ascii_of_string (_payer self)) = false
    /\ Str.lower (_payer self) = _payer self.
Proof.
  intros payer base_url self H.
  destruct (Paymodel_init_inv _ _ _ H) as (Hp & Hl & ->). simpl.
  split; [reflexivity|].
  split; [now rewrite lower_length|].
  split.
  - destruct (startswith_0x_inv payer Hp) as [r ->]. reflexivity.
  - split; [apply lower_no_upper | apply lower_idempotent].
Qed.

Lemma Paymodel_payer_normalised_witness :
  exists self,
    Paymodel_init "0xABCDEFabcdef0123456789ABCDEFabcdef012345" None = ret self
    /\ _payer self = "0xabcdefabcdef0123456789abcdefabcdef012345"
    /\ String.length (_payer self) = 42%nat.
Proof.
  eexists. split; [reflexivity|].
  destruct (Paymodel_payer_normalised
              "0xABCDEFabcdef0123456789ABCDEFabcdef012345" None _ eq_refl)
    as (H1 & H2 & _).
  split; [exact H1 | exact H2].
Defined.

Lemma last_char_cons (c : ascii) (r : string) :
  r <> EmptyString -> last_char (String c r) = last_char r.
Proof. destruct r; [congruence | reflexivity]. Qed.

(** [rstrip] of one character removes a run of that character at the end,
    and all of it. *)
Lemma rstrip_char_spec (ch : ascii) (s : string) :
  (exists n, s = Str.rstrip_char ch s ++ repeat_char ch n)
  /\ last_char (Str.rstrip_char ch s) <> Some ch.
Proof.
  induction s as [|c s [[n IHn] IHl]]; simpl.
  - split; [now exists 0%nat | discriminate].
  - destruct (Str.rstrip_char ch s) as [|c' r'] eqn:E.
    + destruct (Ascii.eqb_spec c ch) as [->|Hc].
      * split; [exists (S n); simpl; now rewrite IHn at 1 | discriminate].
      * split; [exists n; simpl; now rewrite IHn at 1|].
        simpl. congruence.
    + split; [exists n; simpl; now rewrite IHn at 1|].
      rewrite last_char_cons; [exact IHl | discriminate].
Qed.

(** X2: the base URL a client holds.  It is the URL given, or the default
    one when none or the empty one is given, without the slashes at its
    end: putting some number of slashes back gives the URL again, and the
    stored URL does not end with a slash, so [base_url + path] has no
    doubled slash at the joint for a path that starts with one. *)
Theorem Paymodel_base_url_stripped :
  forall (payer : string) (base_url : option string) (self : Paymodel),
    Paymodel_init payer base_url = ret self ->
    (exists n,
        base_url_or_default base_url = _base_url self ++ repeat_char "/" n)
    /\ last_char (_base_url self) <> Some "/"%char
    /\ (base_url = None \/ base_url = Some "" ->
        _base_url self = DEFAULT_BASE_URL)
    /\ (forall path, req_url (get_request self path) = _base_url self ++ path).
Proof.
  intros payer base_url self H.
  destruct (Paymodel_init_inv _ _ _ H) as (_ & _ & ->). simpl.
  destruct (rstrip_char_spec "/" (base_url_or_default base_url)) as [Hn Hl].
  split; [exact Hn|]. split; [exact Hl|]. split; [|reflexivity].
  intros [-> | ->]; reflexivity.
Qed.

Lemma Paymodel_base_url_stripped_witness :
  exists self,
    Paymodel_init "0xABCDEFabcdef0123456789ABCDEFabcdef012345"
      (Some "http://localhost:8787//") = ret self
    /\ _base_url self = "http://localhost:8787"
    /\ last_char (_base_url self) <> Some "/"%char.
Proof.
  eexists. split; [reflexivity|]. split; [reflexivity|].
  exact (proj1 (proj2 (Paymodel_base_url_stripped
                         "0xABCDEFabcdef0123456789ABCDEFabcdef012345"
                         (Some "http://localhost:8787//") _ eq_refl))).
Defined.

(* ================================================================= *)
(** * Further properties of the stream decoder *)

Lemma text_of_app (a b : list string) :
  text_of (a ++ b) = text_of a ++ text_of b.
Proof.
  induction a as [|x a IH]; simpl; [reflexivity|].
  now rewrite IH, append_assoc.
Qed.

(** X3: the run of the decoder depends on the text received and not on the
    way the text is cut into raw reads: two responses that add up to the
    same text give the same actions and the same ending, so an event may
    come in several reads. *)
Theorem decode_any_cutting :
  forall (loads : string -> result value) (resp resp' : list string),
    text_of resp = text_of resp' ->
    decode loads resp = decode loads resp'.
Proof.
  intros loads resp resp' H. now rewrite !decode_text, H.
Qed.

Lemma decode_any_cutting_witness :
  decode Json.loads ["da"; "ta: [DO"; "NE]" ++ Str.nl; "data: 1" ++ Str.nl]
  = decode Json.loads ["data: [DONE]" ++ Str.nl ++ "data: 1" ++ Str.nl].
Proof.
  apply (decode_any_cutting Json.loads
           ["da"; "ta: [DO"; "NE]" ++ Str.nl; "data: 1" ++ Str.nl]
           ["data: [DONE]" ++ Str.nl ++ "data: 1" ++ Str.nl]).
  reflexivity.
Defined.

(** X4: the text after the last newline is never decoded.  When the
    response ends without a newline, its last line, be it a complete
    [data: ] event, is dropped: the run is the run on the text without what
    follows the last newline. *)
Theorem unterminated_line_dropped :
  forall (loads : string -> result value) (resp : list string)
         (pre tail : string),
    at_line_start pre ->
    one_line tail ->
    text_of resp = pre ++ tail ->
    decode loads resp = decode loads [pre]
    /\ decode loads resp = text_run loads pre.
Proof.
  intros loads resp pre tail Hpre Htail Ht.
  assert (H : decode loads resp = text_run loads pre).
  { rewrite decode_text, Ht. unfold text_run.
    rewrite (lines_of_at_line_start pre tail Hpre).
    rewrite (lines_of_one_line tail Htail). simpl. now rewrite app_nil_r. }
  split; [|exact H].
  rewrite H, decode_text. simpl text_of. now rewrite append_nil_r.
Qed.

Lemma unterminated_line_dropped_witness :
  decode Json.loads [he_line; dq "data: {'id':'y'}"]
  = decode Json.loads [he_line].
Proof.
  apply (unterminated_line_dropped Json.loads
           [he_line; dq "data: {'id':'y'}"] he_line (dq "data: {'id':'y'}"));
    reflexivity.
Defined.

Lemma on_line_ignored (loads : string -> result value) (l : string) :
  Str.startswith "data: " (Str.strip l) = false ->
  on_line loads l = ([], None).
Proof. unfold on_line. now intros ->. Qed.

(** X5: a line whose trimmed form does not start with [data: ] (a blank
    line, a comment, an [event:] or [id:] field, [data:] without the space)
    is ignored: no parse, no chunk, no exception, and the run is the run on
    the same stream without that line. *)
Theorem other_line_ignored :
  forall (loads : string -> result value) (resp resp' : list string)
         (pre l post : string),
    at_line_start pre ->
    one_line l ->
    Str.startswith "data: " (Str.strip l) = false ->
    text_of resp = pre ++ l ++ Str.nl ++ post ->
    text_of resp' = pre ++ post ->
    on_line loads l = ([], None)
    /\ decode loads resp = decode loads resp'.
Proof.
  intros loads resp resp' pre l post Hpre Hl Hs Ht Ht'.
  pose proof (on_line_ignored loads l Hs) as Hline.
  split; [exact Hline|].
  rewrite !decode_text, Ht, Ht'. unfold text_run.
  rewrite (lines_of_at_line pre l post Hpre Hl).
  rewrite (lines_of_at_line_start pre post Hpre).
  rewrite !on_lines_app.
  destruct (on_lines loads (fst (lines_of pre))) as [out [fin|]];
    [reflexivity|].
  cbn [on_lines]. rewrite Hline.
  now destruct (on_lines loads (fst (lines_of post))) as [out' o].
Qed.

Lemma other_line_ignored_witness :
  decode Json.loads [he_line; "event: ping" ++ Str.nl; llo_line; done_line]
  = decode Json.loads [he_line; llo_line; done_line].
Proof.
  apply (other_line_ignored Json.loads
           [he_line; "event: ping" ++ Str.nl; llo_line; done_line]
           [he_line; llo_line; done_line]
           he_line "event: ping" (llo_line ++ done_line));
    reflexivity.
Defined.

(** *** White space around a line *)

Lemma lstrip_space (w x : string) :
  all_space w = true -> Str.lstrip (w ++ x) = Str.lstrip x.
Proof.
  unfold all_space. induction w as [|c w IH]; simpl; [reflexivity|].
  intros H. apply andb_true_iff in H as [Hc Hw]. now rewrite Hc, IH.
Qed.

Lemma rstrip_space (w : string) :
  all_space w = true -> Str.rstrip w = EmptyString.
Proof.
  unfold all_space. induction w as [|c w IH]; simpl; [reflexivity|].
  intros H. apply andb_true_iff in H as [Hc Hw]. now rewrite (IH Hw), Hc.
Qed.

Lemma rstrip_app (a b : string) :
  Str.rstrip (a ++ b)
  = match Str.rstrip b with
    | EmptyString => Str.rstrip a
    | String _ _ => a ++ Str.rstrip b
    end.
Proof.
  induction a as [|c a IH]; simpl.
  - now destruct (Str.rstrip b).
  - rewrite IH. destruct (Str.rstrip b) as [|c' r']; [reflexivity|].
    now destruct a.
Qed.

Lemma strip_space (w1 l w2 : string) :
  all_space w1 = true -> all_space w2 = true ->
  Str.strip (w1 ++ l ++ w2) = Str.strip l.
Proof.
  intros H1 H2. unfold Str.strip.
  rewrite <- append_assoc, rstrip_app, (rstrip_space w2 H2).
  rewrite rstrip_app. destruct (Str.rstrip l) as [|c r] eqn:E.
  - now rewrite (rstrip_space w1 H1).
  - now rewrite lstrip_space.
Qed.

(** X6: white space before and after a line makes no difference: the loop
    body does with the padded line what it does with the line itself.  So a
    stream whose lines end with CR LF is decoded like one whose lines end
    with LF, and an indented [data: ] line still counts. *)
Theorem line_padding_insignificant :
  forall (loads : string -> result value) (w1 l w2 : string),
    all_space w1 = true ->
    all_space w2 = true ->
    on_line loads (w1 ++ l ++ w2) = on_line loads l.
Proof.
  intros loads w1 l w2 H1 H2. unfold on_line.
  now rewrite (strip_space w1 l w2 H1 H2).
Qed.

Lemma line_padding_insignificant_witness :
  on_line Json.loads
    ("  " ++ "data: [DONE]" ++ String (ascii_of_nat 13) EmptyString)
  = on_line Json.loads "data: [DONE]".
Proof.
  apply (line_padding_insignificant Json.loads
           "  " "data: [DONE]" (String (ascii_of_nat 13) EmptyString));
    reflexivity.
Defined.

(** *** Payloads that parse but cannot be shaped *)

Lemma ChatCompletionChunk_init_not_dict (v : value) :
  is_dict v = false -> ChatCompletionChunk.init v = raise AttributeError.
Proof. destruct v; simpl; [reflexivity.. | discriminate]. Qed.

(** X7: the leniency of the decoder covers [JSONDecodeError] only.  A
    [data: ] line whose payload is valid JSON but not an object (a number,
    a string, an array, [null]) ends the generator with [AttributeError]:
    in a run that reaches the line, the chunks yielded are those yielded
    before it, and no later line is decoded. *)
Theorem non_object_payload_raises :
  forall (loads : string -> result value) (resp : list string)
         (pre l post payload : string) (v : value),
    at_line_start pre ->
    one_line l ->
    Str.strip l = "data: " ++ payload ->
    payload <> "[DONE]" ->
    loads payload = ret v ->
    is_dict v = false ->
    text_of resp = pre ++ l ++ Str.nl ++ post ->
    snd (decode loads [pre]) = Exhausted ->
    fst (decode loads resp) = (fst (decode loads [pre]) ++ [Parse payload])%list
    /\ yields (fst (decode loads resp)) = yields (fst (decode loads [pre]))
    /\ snd (decode loads resp) = Raised AttributeError.
Proof.
  intros loads resp pre l post payload v Hpre Hl Hs Hp Hv Hd Ht Hex.
  assert (Hline : on_line loads l = ([Parse payload], Some (Raised AttributeError))).
  { rewrite (on_line_payload loads l payload Hs Hp), Hv. cbn [bind ret].
    now rewrite (ChatCompletionChunk_init_not_dict v Hd). }
  revert Hex. rewrite !decode_text, Ht. simpl text_of. rewrite append_nil_r.
  unfold text_run.
  rewrite (lines_of_at_line pre l post Hpre Hl), on_lines_app.
  destruct (on_lines loads (fst (lines_of pre))) as [out [fin|]] eqn:E.
  - simpl. intros ->. now apply on_lines_ending in E.
  - intros _. cbn [on_lines]. rewrite Hline. cbn [fst snd ending].
    rewrite yields_app. simpl. now rewrite app_nil_r.
Qed.

Lemma non_object_payload_raises_witness :
  yields (fst (decode Json.loads [he_line; "data: 1" ++ Str.nl; llo_line]))
  = yields (fst (decode Json.loads [he_line]))
  /\ snd (decode Json.loads [he_line; "data: 1" ++ Str.nl; llo_line])
     = Raised AttributeError.
Proof.
  destruct (non_object_payload_raises Json.loads
              [he_line; "data: 1" ++ Str.nl; llo_line]
              he_line "data: 1" llo_line "1" (VInt 1)
              eq_refl eq_refl eq_refl) as (_ & H2 & H3).
  - discriminate.
  - reflexivity.
  - reflexivity.
  - reflexivity.
  - reflexivity.
  - split; [exact H2 | exact H3].
Defined.

(** X8: chunks are never taken back.  The chunks yielded from the reads
    received so far are the first chunks yielded from those reads followed
    by any further reads, wherever the cut falls. *)
Theorem yields_grow_with_input :
  forall (loads : string -> result value) (resp more : list string),
    exists rest,
      yields (fst (decode loads (resp ++ more)))
      = (yields (fst (decode loads resp)) ++ rest)%list.
Proof.
  intros loads resp more.
  rewrite !decode_text, text_of_app. unfold text_run.
  rewrite lines_of_app. cbn [fst]. rewrite on_lines_app.
  destruct (on_lines loads (fst (lines_of (text_of resp)))) as [out [fin|]].
  - exists []. simpl. now rewrite app_nil_r.
  - destruct (on_lines loads _) as [out' o]. simpl.
    exists (yields out'). apply yields_app.
Qed.

(* ================================================================= *)
(** * Further properties of response shaping *)

(** X9: when a [ChatCompletionChunk] can be built.  From a value that is
    not a dict the constructor raises [AttributeError]; from a dict whose
    [choices] is not iterable (a number, a boolean, [null]) it raises
    [TypeError]; when some element of [choices] is not a dict, or has a
    [delta] that is not a dict, it raises [AttributeError]; in every other
    case it returns a chunk with one choice per element, the [id] and
    [model] of the dict (the empty string when absent) and the fixed
    [object]. *)
Theorem ChatCompletionChunk_init_outcome :
  forall data : value,
    match data with
    | VDict d =>
        match iterate (get_default "choices" d (VList [])) with
        | inl _ => ChatCompletionChunk.init data = raise TypeError
        | inr items =>
            if forallb (element_ok "delta") items then
              exists r,
                ChatCompletionChunk.init data = ret r
                /\ List.length (ChatCompletionChunk.choices r) = List.length items
                /\ ChatCompletionChunk.id r = get_default "id" d (VStr "")
                /\ ChatCompletionChunk.model r = get_default "model" d (VStr "")
                /\ ChatCompletionChunk.object r = VStr "chat.completion.chunk"
            else ChatCompletionChunk.init data = raise AttributeError
        end
    | _ => ChatCompletionChunk.init data = raise AttributeError
    end.
Proof.
  intros [| | | | | |d]; try reflexivity.
  unfold ChatCompletionChunk.init, ChatCompletionChunk.choices_of.
  cbn [get bind ret]. fold (get_default "choices" d (VList [])).
  destruct (iterate (get_default "choices" d (VList []))) as [e|items] eqn:E.
  - now rewrite (iterate_raises _ _ E).
  - cbn [bind]. destruct (forallb (element_ok "delta") items) eqn:F.
    + destruct (comprehension_all ChatCompletionChunk.choice (element_ok "delta")
                  ChatCompletionChunk_choice_ok items 0 F) as [out Hout].
      rewrite Hout. cbn [bind ret]. eexists. split; [reflexivity|]. simpl.
      split; [exact (proj1 (comprehension_nth _ _ _ _ Hout))|].
      repeat split.
    + now rewrite (comprehension_some ChatCompletionChunk.choice
                     (element_ok "delta") AttributeError
                     ChatCompletionChunk_choice_ok
                     ChatCompletionChunk_choice_bad items 0 F).
Qed.

(** X10: when a [ChatCompletion] can be built.  As for a chunk, with
    [message] in the place of [delta], and one more condition: a [usage]
    that is present and not a dict makes the constructor raise
    [AttributeError].  The completion returned keeps the parsed value in
    [_data], has one choice per element of [choices], and neither cost nor
    balance. *)
Theorem ChatCompletion_init_outcome :
  forall data : value,
    match data with
    | VDict d =>
        match iterate (get_default "choices" d (VList [])) with
        | inl _ => ChatCompletion.init data = raise TypeError
        | inr items =>
            if forallb (element_ok "message") items
               && is_dict (get_default "usage" d (VDict []))
            then
              exists r,
                ChatCompletion.init data = ret r
                /\ List.length (ChatCompletion.choices r) = List.length items
                /\ ChatCompletion._data r = data
                /\ ChatCompletion.id r = get_default "id" d (VStr "")
                /\ ChatCompletion.object r
                   = get_default "object" d (VStr "chat.completion")
                /\ ChatCompletion.model r = get_default "model" d (VStr "")
                /\ ChatCompletion.cost r = None
                /\ ChatCompletion.balance r = None
            else ChatCompletion.init data = raise AttributeError
        end
    | _ => ChatCompletion.init data = raise AttributeError
    end.
Proof.
  intros [| | | | | |d]; try reflexivity.
  unfold ChatCompletion.init, ChatCompletion.choices_of.
  cbn [get bind ret]. fold (get_default "choices" d (VList [])).
  fold (get_default "usage" d (VDict [])).
  destruct (iterate (get_default "choices" d (VList []))) as [e|items] eqn:E.
  - now rewrite (iterate_raises _ _ E).
  - cbn [bind]. destruct (forallb (element_ok "message") items) eqn:F.
    + destruct (comprehension_all ChatCompletion.choice (element_ok "message")
                  ChatCompletion_choice_ok items 0 F) as [out Hout].
      rewrite Hout. cbn [bind ret andb].
      destruct (get_default "usage" d (VDict [])) as [| | | | | |u];
        try reflexivity.
      cbn [get bind ret is_dict]. eexists. split; [reflexivity|]. simpl.
      split; [exact (proj1 (comprehension_nth _ _ _ _ Hout))|].
      repeat split.
    + now rewrite (comprehension_some ChatCompletion.choice
                     (element_ok "message") AttributeError
                     ChatCompletion_choice_ok
                     ChatCompletion_choice_bad items 0 F).
Qed.

(* ================================================================= *)
(** * Further properties of the transport *)



(** X12: an error body that parses but is not an object (an array, a
    string, a number, [null]) gives no [PaymodelError]: every operation
    raises [AttributeError]. *)
Theorem error_body_not_object :
  forall (loads : string -> result value) (dumps : value -> string)
         (urlopen : Request -> reply) (self : Paymodel)
         (code : Z) (msg text : string) (v : value),
    (forall req, urlopen req = ErrorResponse code msg text) ->
    loads text = ret v ->
    is_dict v = false ->
    (forall path, _get loads urlopen self path = raise AttributeError)
    /\ (forall path body,
          _post loads dumps urlopen self path body = raise AttributeError)
    /\ balance loads urlopen self = raise AttributeError
    /\ (forall tx_hash,
          deposit loads dumps urlopen self tx_hash = raise AttributeError)
    /\ models loads urlopen self = raise AttributeError
    /\ usage loads urlopen self = raise AttributeError
    /\ (forall body,
          _request loads dumps urlopen self body = raise AttributeError).
Proof.
  intros loads dumps urlopen self code msg text v Hans Hl Hv.
  apply (operations_raise loads dumps urlopen self code msg text Hans).
  simpl. rewrite Hl. destruct v; try reflexivity. discriminate.
Qed.

Lemma error_body_not_object_witness :
  balance Json.loads array_error_server zero_client = raise AttributeError.
Proof.
  exact (proj1 (proj2 (proj2 (error_body_not_object Json.loads (fun _ => "")
                                array_error_server zero_client
                                500 "Internal Server Error" "[]" (VList [])
                                (fun _ => eq_refl) eq_refl eq_refl)))).
Defined.

(** *** The headers of a response, as a dict *)

Lemma header_get_set_same (k v : string) (d : list (string * string)) :
  header_get k (header_set k v d) = Some v.
Proof.
  induction d as [|[k' v'] d IH]; simpl.
  - now rewrite String.eqb_refl.
  - destruct (String.eqb k k') eqn:E; simpl; rewrite E; [reflexivity | exact IH].
Qed.

Lemma header_get_set_other (k k' v : string) (d : list (string * string)) :
  k <> k' -> header_get k' (header_set k v d) = header_get k' d.
Proof.
  intros Hk. induction d as [|[k0 v0] d IH]; simpl.
  - apply not_eq_sym in Hk. apply String.eqb_neq in Hk. now rewrite Hk.
  - destruct (String.eqb_spec k k0) as [<-|Hk0]; simpl.
    + destruct (String.eqb_spec k' k); [congruence | reflexivity].
    + now rewrite IH.
Qed.

(** A name is a key of [dict(resp.headers)] when a header has exactly that
    name; its value is then the value of the first header with that name,
    letter case apart. *)
Lemma header_get_dict_of_headers (name : string)
    (headers : list (string * string)) :
  header_get name (dict_of_headers headers)
  = if existsb (fun kv : string * string => String.eqb (fst kv) name) headers
    then header_first name headers
    else None.
Proof.
  unfold dict_of_headers.
  assert (H : forall l d,
             header_get name
               (fold_left
                  (fun d (kv : string * string) =>
                     match header_first (fst kv) headers with
                     | Some v => header_set (fst kv) v d
                     | None => d
                     end) l d)
             = match (if existsb (fun kv : string * string => String.eqb (fst kv) name) l
                      then header_first name headers else None) with
               | Some v => Some v
               | None => header_get name d
               end).
  { induction l as [|[k v] l IH]; intros d; simpl; [reflexivity|].
    rewrite IH. destruct (String.eqb_spec k name) as [->|Hk]; simpl.
    - destruct (header_first name headers) as [w|] eqn:E.
      + destruct (existsb _ l); [reflexivity | apply header_get_set_same].
      + now destruct (existsb _ l).
    - destruct (existsb _ l).
      + destruct (header_first name headers); [reflexivity|].
        destruct (header_first k headers); [|reflexivity].
        now apply header_get_set_other.
      + destruct (header_first k headers); [|reflexivity].
        now apply header_get_set_other. }
  rewrite H. simpl.
  destruct (existsb _ headers); [|reflexivity].
  now destruct (header_first name headers).
Qed.

(** X13: on a 2xx response whose body [json.loads] parses, [_get] and
    [_post] return the parsed body with [dict(resp.headers)], and
    [balance], [deposit], [models] and [usage] return the parsed body as it
    is, object or not. *)
Theorem success_body_returned :
  forall (loads : string -> result value) (dumps : value -> string)
         (urlopen : Request -> reply) (self : Paymodel)
         (headers : list (string * string)) (text : string) (data : value),
    (forall req, urlopen req = Response headers text) ->
    loads text = ret data ->
    (forall path,
        _get loads urlopen self path = ret (data, dict_of_headers headers))
    /\ (forall path body,
          _post loads dumps urlopen self path body
          = ret (data, dict_of_headers headers))
    /\ balance loads urlopen self = ret data
    /\ (forall tx_hash, deposit loads dumps urlopen self tx_hash = ret data)
    /\ models loads urlopen self = ret data
    /\ usage loads urlopen self = ret data.
Proof.
  intros loads dumps urlopen self headers text data Hans Hl.
  unfold balance, deposit, models, usage, _get, _post.
  repeat split; intros; rewrite !Hans; simpl; rewrite Hl; reflexivity.
Qed.

Lemma success_body_returned_witness :
  balance Json.loads seven_server zero_client = ret (VInt 7).
Proof.
  exact (proj1 (proj2 (proj2 (success_body_returned Json.loads
                                (fun _ => "") seven_server zero_client
                                [] "7" (VInt 7) (fun _ => eq_refl) eq_refl)))).
Defined.

(** X14: the non-streaming chat completion on a 2xx response.  It is the
    completion shaped from the parsed body, with [cost] and [balance] read
    in [dict(resp.headers)], whatever the body says: [cost] is set when a
    header is named exactly [X-Cost], to the value of the first header with
    that name letter case apart, and is [None] otherwise; likewise
    [balance] with [X-Balance].  When the body cannot be shaped, the
    exception of the constructor is raised. *)
Theorem _request_shapes_body :
  forall (loads : string -> result value) (dumps : value -> string)
         (urlopen : Request -> reply) (client : Paymodel) (body : value)
         (headers : list (string * string)) (text : string) (data : value),
    urlopen (post_request dumps client "/v1/chat/completions" body)
    = Response headers text ->
    loads text = ret data ->
    (forall r,
        ChatCompletion.init data = ret r ->
        exists res,
          _request loads dumps urlopen client body = ret res
          /\ ChatCompletion.cost res
             = (if existsb (fun kv : string * string => String.eqb (fst kv) "X-Cost") headers
                then header_first "X-Cost" headers else None)
          /\ ChatCompletion.balance res
             = (if existsb (fun kv : string * string => String.eqb (fst kv) "X-Balance") headers
                then header_first "X-Balance" headers else None)
          /\ ChatCompletion._data res = ChatCompletion._data r
          /\ ChatCompletion.id res = ChatCompletion.id r
          /\ ChatCompletion.object res = ChatCompletion.object r
          /\ ChatCompletion.model res = ChatCompletion.model r
          /\ ChatCompletion.choices res = ChatCompletion.choices r
          /\ ChatCompletion.usage res = ChatCompletion.usage r)
    /\ (forall e,
          ChatCompletion.init data = raise e ->
          _request loads dumps urlopen client body = raise e).
Proof.
  intros loads dumps urlopen client body headers text data Hans Hl.
  unfold _request, _post. rewrite Hans. simpl. rewrite Hl. cbn [bind ret].
  split.
  - intros r ->. cbn [bind ret]. eexists. split; [reflexivity|]. simpl.
    rewrite !header_get_dict_of_headers. repeat split.
  - intros e ->. reflexivity.
Qed.

Lemma _request_shapes_body_witness :
  exists res,
    _request Json.loads (fun _ => "")
      (fun _ => Response [("x-cost", "2"); ("X-Cost", "1"); ("x-balance", "9")]
                  (dq "{'cost':'free'}"))
      zero_client VNone = ret res
    /\ ChatCompletion.cost res = Some "2"
    /\ ChatCompletion.balance res = None.
Proof.
  destruct (proj1 (_request_shapes_body Json.loads (fun _ => "")
                     (fun _ => Response
                                 [("x-cost", "2"); ("X-Cost", "1"); ("x-balance", "9")]
                                 (dq "{'cost':'free'}"))
                     zero_client VNone
                     [("x-cost", "2"); ("X-Cost", "1"); ("x-balance", "9")]
                     (dq "{'cost':'free'}") _ eq_refl eq_refl)
              _ eq_refl) as (res & H1 & H2 & H3 & _).
  exists res. split; [exact H1|]. split; [exact H2 | exact H3].
Defined.

(** *** How a streaming call ends *)

Lemma on_lines_no_decode_error (loads : string -> result value)
    (ls : list string) (out : list action) :
  on_lines loads ls <> (out, Some (Raised JSONDecodeError)).
Proof.
  revert out. induction ls as [|l ls IH]; simpl; intros out H; [discriminate|].
  destruct (on_line_cases loads l)
    as [E | [E | (p & _ & [E | [(e & He & E) | [c E]]])]];
    rewrite E in H.
  - destruct (on_lines loads ls) as [out' o] eqn:E'. inversion H; subst.
    exact (IH _ eq_refl).
  - discriminate.
  - destruct (on_lines loads ls) as [out' o] eqn:E'. inversion H; subst.
    exact (IH _ eq_refl).
  - inversion H; subst. now apply He.
  - destruct (on_lines loads ls) as [out' o] eqn:E'. inversion H; subst.
    exact (IH _ eq_refl).
Qed.

(** X15: a streaming call never ends with [JSONDecodeError], on any
    response and whatever [json.loads] does; and on a non-2xx answer it
    yields nothing and raises the [HTTPError] as it is, not a
    [PaymodelError]: the error body is not read. *)
Theorem _stream_endings :
  forall (loads : string -> result value) (dumps : value -> string)
         (urlopen : Request -> reply) (client : Paymodel) (body : value),
    snd (_stream loads dumps urlopen client body) <> Raised JSONDecodeError
    /\ (forall resp, snd (decode loads resp) <> Raised JSONDecodeError)
    /\ (forall code msg text,
          urlopen (post_request dumps client "/v1/chat/completions" body)
          = ErrorResponse code msg text ->
          _stream loads dumps urlopen client body
          = ([], Raised (HTTPError code msg))).
Proof.
  intros loads dumps urlopen client body.
  assert (Hd : forall resp, snd (decode loads resp) <> Raised JSONDecodeError).
  { intros resp. rewrite decode_text. unfold text_run.
    destruct (on_lines loads _) as [out [fin|]] eqn:E; simpl; [|discriminate].
    intros ->. exact (on_lines_no_decode_error loads _ _ E). }
  split; [|split; [exact Hd|]].
  - unfold _stream.
    destruct (urlopen _) as [headers text | code msg text |];
      [apply Hd | discriminate | discriminate].
  - intros code msg text H. unfold _stream. now rewrite H.
Qed.

Lemma _stream_endings_witness :
  _stream Json.loads (fun _ => "") payment_required zero_client VNone
  = ([], Raised (HTTPError 402 "Payment Required")).
Proof.
  exact (proj2 (proj2 (_stream_endings Json.loads (fun _ => "") payment_required
                         zero_client VNone))
           402 "Payment Required" insufficient_funds_body eq_refl).
Defined.

(** X17: the loop catches [JSONDecodeError] and nothing else.  A [data: ]
    line on whose payload [json.loads] raises another exception
    ([RecursionError] on brackets nested too deep, [ValueError] on an
    integer of more than 4300 digits) ends the generator with that
    exception: in a run that reaches the line, the chunks yielded are those
    yielded before it, and no later line is decoded. *)
Theorem payload_exception_ends_stream :
  forall (loads : string -> result value) (resp : list string)
         (pre l post payload : string) (e : exn),
    at_line_start pre ->
    one_line l ->
    Str.strip l = "data: " ++ payload ->
    payload <> "[DONE]" ->
    loads payload = raise e ->
    e <> JSONDecodeError ->
    text_of resp = pre ++ l ++ Str.nl ++ post ->
    snd (decode loads [pre]) = Exhausted ->
    fst (decode loads resp) = (fst (decode loads [pre]) ++ [Parse payload])%list
    /\ yields (fst (decode loads resp)) = yields (fst (decode loads [pre]))
    /\ snd (decode loads resp) = Raised e.
Proof.
  intros loads resp pre l post payload e Hpre Hl Hs Hp Hv He Ht Hex.
  assert (Hline : on_line loads l = ([Parse payload], Some (Raised e))).
  { rewrite (on_line_payload loads l payload Hs Hp), Hv. cbn [bind raise].
    destruct e; try reflexivity. now destruct He. }
  revert Hex. rewrite !decode_text, Ht. simpl text_of. rewrite append_nil_r.
  unfold text_run.
  rewrite (lines_of_at_line pre l post Hpre Hl), on_lines_app.
  destruct (on_lines loads (fst (lines_of pre))) as [out [fin|]] eqn:E.
  - simpl. intros ->. now apply on_lines_ending in E.
  - intros _. cbn [on_lines]. rewrite Hline. cbn [fst snd ending].
    rewrite yields_app. simpl. now rewrite app_nil_r.
Qed.

Lemma payload_exception_ends_stream_witness :
  yields (fst (decode Json.loads [he_line; deep_line; llo_line]))
  = yields (fst (decode Json.loads [he_line]))
  /\ snd (decode Json.loads [he_line; deep_line; llo_line])
     = Raised RecursionError.
Proof.
  destruct (payload_exception_ends_stream Json.loads
              [he_line; deep_line; llo_line]
              he_line ("data: " ++ deep_payload) llo_line deep_payload
              RecursionError
              ltac:(vm_compute; reflexivity) ltac:(vm_compute; reflexivity)
              ltac:(vm_compute; reflexivity)) as (_ & H2 & H3).
  - vm_compute. discriminate.
  - vm_compute. reflexivity.
  - discriminate.
  - vm_compute. reflexivity.
  - vm_compute. reflexivity.
  - split; [exact H2 | exact H3].
Defined.

(* ================================================================= *)
(** * Further properties of [create] *)

Lemma dict_get_set_same (k : string) (v : value) (d : dict) :
  dict_get k (dict_set k v d) = Some v.
Proof.
  induction d as [|[k' v'] d IH]; simpl.
  - now rewrite String.eqb_refl.
  - destruct (String.eqb k k') eqn:E; simpl; rewrite E; [reflexivity | exact IH].
Qed.

Lemma dict_get_set_other (k k' : string) (v : value) (d : dict) :
  k <> k' -> dict_get k' (dict_set k v d) = dict_get k' d.
Proof.
  intros Hk. induction d as [|[k0 v0] d IH]; simpl.
  - apply not_eq_sym in Hk. apply String.eqb_neq in Hk. now rewrite Hk.
  - destruct (String.eqb_spec k k0) as [<-|Hk0]; simpl.
    + destruct (String.eqb_spec k' k); [congruence | reflexivity].
    + now rewrite IH.
Qed.

Lemma dict_get_app (k : string) (a b : dict) :
  dict_get k (a ++ b)%list
  = match dict_get k a with
    | Some v => Some v
    | None => dict_get k b
    end.
Proof.
  induction a as [|[k' v'] a IH]; simpl; [reflexivity|].
  now destruct (String.eqb k k').
Qed.

(** Items set one after the other: the last value set for a key is the one
    found, and the other keys keep their value. *)
Lemma dict_get_fold_set (k : string) (kwargs : dict) :
  forall d : dict,
    dict_get k (fold_left (fun d kv => dict_set (fst kv) (snd kv) d) kwargs d)
    = match dict_get k (rev kwargs) with
      | Some v => Some v
      | None => dict_get k d
      end.
Proof.
  induction kwargs as [|[k0 v0] kwargs IH]; intros d; simpl; [reflexivity|].
  rewrite IH, dict_get_app. destruct (dict_get k (rev kwargs)); [reflexivity|].
  simpl. destruct (String.eqb_spec k k0) as [->|Hk].
  - apply dict_get_set_same.
  - apply dict_get_set_other. congruence.
Qed.

Lemma dict_get_absent (k : string) (d : dict) :
  (forall kv, In kv d -> fst kv <> k) -> dict_get k d = None.
Proof.
  induction d as [|[k' v'] d IH]; simpl; intros H; [reflexivity|].
  destruct (String.eqb_spec k k') as [->|_].
  - now destruct (H (k', v') (or_introl eq_refl)).
  - apply IH. intros kv Hin. apply H. now right.
Qed.

Lemma dict_get_rev_distinct (k : string) (kwargs : dict) :
  distinct_keys kwargs = true -> dict_get k (rev kwargs) = dict_get k kwargs.
Proof.
  induction kwargs as [|[k0 v0] kwargs IH]; simpl; [reflexivity|].
  intros H. apply andb_true_iff in H as [Hk0 Hd].
  rewrite dict_get_app, (IH Hd). simpl.
  destruct (String.eqb_spec k k0) as [->|Hk].
  - rewrite dict_get_absent; [reflexivity|].
    intros kv Hin E. apply negb_true_iff in Hk0.
    assert (Hex : existsb (fun kv => String.eqb (fst kv) k0) kwargs = true).
    { apply existsb_exists. exists kv. split; [exact Hin|].
      now apply String.eqb_eq. }
    congruence.
  - now destruct (dict_get k kwargs).
Qed.

(** X16: the request body of [create].  With keyword arguments (a dict: no
    key twice) other than the named parameters, the body sent, by the
    streaming and by the non-streaming call alike, is a dict in which
    [model], [messages] and [stream] are the arguments given and every
    other key has the value the keyword arguments give it, none when they
    give none. *)
Theorem create_request_body :
  forall (loads : string -> result value) (dumps : value -> string)
         (urlopen : Request -> reply) (client : Paymodel)
         (model messages : value) (stream : bool) (kwargs : dict),
    distinct_keys kwargs = true ->
    forallb (fun kv => negb (is_named_parameter (fst kv))) kwargs = true ->
    exists body,
      create loads dumps urlopen client model messages stream kwargs
      = (if stream
         then Stream (_stream loads dumps urlopen client (VDict body))
         else Completion (_request loads dumps urlopen client (VDict body)))
      /\ dict_get "model" body = Some model
      /\ dict_get "messages" body = Some messages
      /\ dict_get "stream" body = Some (VBool stream)
      /\ (forall k,
            is_named_parameter k = false ->
            dict_get k body = dict_get k kwargs).
Proof.
  intros loads dumps urlopen client model messages stream kwargs Hdist Hkw.
  eexists. split; [unfold create; reflexivity|].
  assert (Habs : forall k, is_named_parameter k = true ->
                           dict_get k (rev kwargs) = None).
  { intros k Hk. apply dict_get_absent. intros kv Hin E.
    apply in_rev in Hin.
    rewrite forallb_forall in Hkw. specialize (Hkw kv Hin).
    rewrite E, Hk in Hkw. discriminate. }
  rewrite !dict_get_fold_set.
  rewrite (Habs "model" eq_refl), (Habs "messages" eq_refl),
    (Habs "stream" eq_refl).
  repeat split.
  intros k Hk. rewrite dict_get_fold_set, (dict_get_rev_distinct k kwargs Hdist).
  destruct (dict_get k kwargs); [reflexivity|].
  unfold is_named_parameter in Hk.
  apply orb_false_iff in Hk as [Hk Hs]. apply orb_false_iff in Hk as [Hm Hg].
  simpl. now rewrite Hm, Hg, Hs.
Qed.

Lemma create_request_body_witness :
  exists body,
    create Json.loads (fun _ => "") seven_server zero_client
      (VStr "llama-3.3-70b") (VList []) true
      [("temperature", VInt 0); ("max_tokens", VInt 16)]
    = Stream (_stream Json.loads (fun _ => "") seven_server zero_client
                (VDict body))
    /\ dict_get "stream" body = Some (VBool true)
    /\ dict_get "temperature" body = Some (VInt 0)
    /\ dict_get "max_tokens" body = Some (VInt 16)
    /\ dict_get "top_p" body = None.
Proof.
  destruct (create_request_body Json.loads (fun _ => "") seven_server
              zero_client (VStr "llama-3.3-70b") (VList []) true
              [("temperature", VInt 0); ("max_tokens", VInt 16)]
              eq_refl eq_refl)
    as (body & H1 & _ & _ & H4 & H5).
  exists body. split; [exact H1|]. split; [exact H4|].
  split; [exact (H5 "temperature" eq_refl)|].
  split; [exact (H5 "max_tokens" eq_refl) | exact (H5 "top_p" eq_refl)].
Defined.
